(** * Lab crisis automation: the dashboard builder and the webhook handshake

    A shallow embedding of [scripts/build_dashboard.js] (class
    [DashboardBuilder]) and of the webhook verification contract.

    Conventions of the embedding.
    - A report document is a JavaScript value as [JSON.parse] returns it.
      An object is the list of its own properties in enumeration order
      ([JSON.parse] has already resolved repeated keys and ordered the
      integer-like ones).
    - JavaScript numbers are IEEE doubles; the program only converts them to
      text, tests them for truth and compares a length with zero.  These
      operations form the interface [JsNumber]; every theorem holds for any
      implementation of it, and [IntNumber] (integers) runs the model.
    - A character of a [string] stands for one UTF-16 code unit of the
      JavaScript string; the constant text of the page outside ASCII is kept
      as the bytes of the source file.
    - An exception is a [Throw] result; [console.log] appends to a list. *)

From Stdlib Require Import List String Ascii Bool Arith Lia ZArith.
From Stdlib Require Import DecimalString.
Import ListNotations.
Open Scope string_scope.
Set Warnings "-register-all".

(** ** Exceptions *)

Inductive exn : Type :=
| TypeError
| WriteError.

Inductive result (A : Type) : Type :=
| Ok (a : A)
| Throw (e : exn).
Arguments Ok {A} a.
Arguments Throw {A} e.

Definition bind {A B : Type} (r : result A) (k : A -> result B) : result B :=
  match r with
  | Ok a => k a
  | Throw e => Throw e
  end.

Notation "x <- r ;; k" := (bind r (fun x => k))
  (at level 61, r at next level, right associativity).

(** [Array.prototype.map] with a callback that may throw: elements are
    visited in order and the first exception escapes. *)
Definition mapM {A B : Type} (f : A -> result B) : list A -> result (list B) :=
  fix go (l : list A) : result (list B) :=
    match l with
    | [] => Ok []
    | x :: r => y <- f x ;; ys <- go r ;; Ok (y :: ys)
    end.

(** [Array.prototype.join] on strings. *)
Fixpoint join (sep : string) (l : list string) : string :=
  match l with
  | [] => ""
  | [x] => x
  | x :: r => x ++ sep ++ join sep r
  end.

(** [Array.prototype.slice(0, n)]. *)
Definition slice0 {A : Type} (n : nat) (l : list A) : list A := firstn n l.

(** The double quote, as a one-character string. *)
Definition dq : string := String (ascii_of_nat 34) EmptyString.

Definition nat_to_string (n : nat) : string :=
  NilZero.string_of_uint (Nat.to_uint n).

(** ** Numbers *)

Class JsNumber : Type := {
  number : Type;
  (** the literal [0] *)
  num_zero : number;
  (** [ToNumber(true)] *)
  num_one : number;
  (** [NaN], which [ToNumber(undefined)] gives *)
  num_nan : number;
  (** the [length] of an array or a string *)
  num_of_nat : nat -> number;
  (** [ToNumber] of a string *)
  str_to_num : string -> number;
  (** [ToBoolean] *)
  num_truthy : number -> bool;
  (** [n > 0] *)
  num_gt_zero : number -> bool;
  (** [ToString] *)
  num_to_string : number -> string;
  (** [n.toFixed(1)] *)
  num_to_fixed1 : number -> string;
  num_zero_to_string : num_to_string num_zero = "0";
  num_nan_gt_zero : num_gt_zero num_nan = false;
  num_of_nat_gt_zero : forall n, num_gt_zero (num_of_nat n) = (0 <? n)%nat
}.

(** Integers, with [None] for [NaN]. *)
Definition Z_to_string (z : Z) : string := NilZero.string_of_int (Z.to_int z).

Definition int_of_string (s : string) : option Z :=
  match s with
  | EmptyString => Some 0%Z
  | _ => option_map Z.of_int (NilZero.int_of_string s)
  end.

Definition int_truthy (n : option Z) : bool :=
  match n with
  | Some z => negb (Z.eqb z 0)
  | None => false
  end.

Definition int_gt_zero (n : option Z) : bool :=
  match n with
  | Some z => Z.ltb 0 z
  | None => false
  end.

Definition int_to_string (n : option Z) : string :=
  match n with
  | Some z => Z_to_string z
  | None => "NaN"
  end.

Definition int_to_fixed1 (n : option Z) : string :=
  match n with
  | Some z => Z_to_string z ++ ".0"
  | None => "NaN"
  end.

Lemma int_of_nat_gt_zero (n : nat) :
  int_gt_zero (Some (Z.of_nat n)) = (0 <? n)%nat.
Proof.
  unfold int_gt_zero. destruct n as [|n].
  - reflexivity.
  - rewrite (proj2 (Z.ltb_lt 0 (Z.of_nat (S n)))) by lia. reflexivity.
Qed.

#[export] Instance IntNumber : JsNumber := {|
  number := option Z;
  num_zero := Some 0%Z;
  num_one := Some 1%Z;
  num_nan := None;
  num_of_nat := fun n => Some (Z.of_nat n);
  str_to_num := int_of_string;
  num_truthy := int_truthy;
  num_gt_zero := int_gt_zero;
  num_to_string := int_to_string;
  num_to_fixed1 := int_to_fixed1;
  num_zero_to_string := eq_refl;
  num_nan_gt_zero := eq_refl;
  num_of_nat_gt_zero := int_of_nat_gt_zero
|}.

(** ** JavaScript values *)

Section Values.
Context {N : JsNumber}.

Inductive value : Type :=
| VUndef
| VNull
| VBool (b : bool)
| VNum (n : number)
| VStr (s : string)
| VArr (l : list value)
| VObj (l : list (string * value)).

(** Own-property lookup in an object. *)
Fixpoint lookup (k : string) (l : list (string * value)) : option value :=
  match l with
  | [] => None
  | (k', v) :: r => if String.eqb k k' then Some v else lookup k r
  end.

Definition has_key (k : string) (l : list (string * value)) : bool :=
  match lookup k l with
  | Some _ => true
  | None => false
  end.

(** [ToBoolean]. *)
Definition truthy (v : value) : bool :=
  match v with
  | VUndef | VNull => false
  | VBool b => b
  | VNum n => num_truthy n
  | VStr s => negb (String.eqb s "")
  | VArr _ | VObj _ => true
  end.

(** [a || b]. *)
Definition js_or (a b : value) : value := if truthy a then a else b.

Definition nullish (v : value) : bool :=
  match v with
  | VUndef | VNull => true
  | _ => false
  end.

(** [v.k] on a value that is neither [undefined] nor [null], for the
    property names the program uses: an object answers with its own
    property, an array and a string answer [length], and nothing else is
    found (no name the program reads is inherited from a prototype, apart
    from [length]). *)
Definition prop (v : value) (k : string) : value :=
  match v with
  | VObj l =>
      match lookup k l with
      | Some x => x
      | None => VUndef
      end
  | VArr l => if String.eqb k "length" then VNum (num_of_nat (List.length l)) else VUndef
  | VStr s => if String.eqb k "length" then VNum (num_of_nat (String.length s)) else VUndef
  | _ => VUndef
  end.

(** [v.k]: a [TypeError] on [undefined] and [null]. *)
Definition member (v : value) (k : string) : result value :=
  if nullish v then Throw TypeError else Ok (prop v k).

(** [v?.k]. *)
Definition opt_member (v : value) (k : string) : value :=
  if nullish v then VUndef else prop v k.

(** [v?.k1?.k2 ... ]. *)
Definition opt_path (v : value) (ks : list string) : value :=
  fold_left opt_member ks v.

(** [ToString], as a template literal applies it.  A plain object prints as
    [[object Object]] unless it has an own property [toString]: that one
    shadows the inherited method, is not callable, and the conversion ends
    in a [TypeError].  An array joins its elements with commas, [null] and
    [undefined] elements printing as nothing. *)
Fixpoint to_string (v : value) : result string :=
  match v with
  | VUndef => Ok "undefined"
  | VNull => Ok "null"
  | VBool b => Ok (if b then "true" else "false")
  | VNum n => Ok (num_to_string n)
  | VStr s => Ok s
  | VArr l =>
      strs <- mapM (fun x => if nullish x then Ok "" else to_string x) l ;;
      Ok (join "," strs)
  | VObj l =>
      if has_key "toString" l then Throw TypeError else Ok "[object Object]"
  end.

(** [ToNumber], as [>] applies it with the hint "number": an object tries
    [valueOf] (which never yields a primitive here) and then [toString]. *)
Definition to_number (v : value) : result number :=
  match v with
  | VUndef => Ok num_nan
  | VNull => Ok num_zero
  | VBool b => Ok (if b then num_one else num_zero)
  | VNum n => Ok n
  | VStr s => Ok (str_to_num s)
  | VArr _ | VObj _ => s <- to_string v ;; Ok (str_to_num s)
  end.

(** [v > 0]. *)
Definition gt_zero (v : value) : result bool :=
  n <- to_number v ;; Ok (num_gt_zero n).

(** The characters of a string with their indices, as [Object.entries]
    lists them. *)
Fixpoint string_entries (i : nat) (s : string) : list (string * value) :=
  match s with
  | EmptyString => []
  | String c r => (nat_to_string i, VStr (String c EmptyString)) :: string_entries (S i) r
  end.

Fixpoint array_entries (i : nat) (l : list value) : list (string * value) :=
  match l with
  | [] => []
  | x :: r => (nat_to_string i, x) :: array_entries (S i) r
  end.

(** [Object.entries(v)] for [v] neither [undefined] nor [null]. *)
Definition entries (v : value) : list (string * value) :=
  match v with
  | VObj l => l
  | VArr l => array_entries 0 l
  | VStr s => string_entries 0 s
  | _ => []
  end.

(** [s.replace(/_/g, ' ')]. *)
Fixpoint underscores_to_spaces (s : string) : string :=
  match s with
  | EmptyString => EmptyString
  | String c r =>
      String (if Ascii.eqb c "_"%char then " "%char else c) (underscores_to_spaces r)
  end.

End Values.

Arguments value : clear implicits.
Arguments value {N}.

(** ** The text of the page

    Each template literal of the source, as a function of the strings its
    placeholders are replaced by. *)

Definition alert_message (area current_value target_value : string) : string :=
  area ++ ": " ++ current_value ++ " (target: " ++ target_value ++ ")".

Definition built_sections_line (n : string) : string :=
  "✓ Built " ++ n ++ " sections".

Definition html_page (title status_class status_text healthMetrics performanceMetrics repoStatus alertsHtml labMetrics workflowStatus now : string) : string :=
  "<!DOCTYPE html>
<html lang=" ++ dq ++ "en" ++ dq ++ ">
<head>
    <meta charset=" ++ dq ++ "UTF-8" ++ dq ++ ">
    <meta name=" ++ dq ++ "viewport" ++ dq ++ " content=" ++ dq ++ "width=device-width, initial-scale=1.0" ++ dq ++ ">
    <title>" ++ title ++ "</title>
    <style>
        * { margin: 0; padding: 0; box-sizing: border-box; }
        body {
            font-family: -apple-system, BlinkMacSystemFont, 'Segoe UI', Roboto, sans-serif;
            background: linear-gradient(135deg, #667eea 0%, #764ba2 100%);
            min-height: 100vh;
            padding: 20px;
        }
        .container {
            max-width: 1400px;
            margin: 0 auto;
        }
        h1 {
            color: white;
            text-align: center;
            margin-bottom: 30px;
            font-size: 2.5em;
            text-shadow: 2px 2px 4px rgba(0,0,0,0.2);
        }
        .dashboard-grid {
            display: grid;
            grid-template-columns: repeat(auto-fit, minmax(350px, 1fr));
            gap: 20px;
        }
        .card {
            background: white;
            border-radius: 15px;
            padding: 25px;
            box-shadow: 0 10px 30px rgba(0,0,0,0.1);
            transition: transform 0.3s;
        }
        .card:hover {
            transform: translateY(-5px);
        }
        .card h2 {
            color: #333;
            margin-bottom: 20px;
            font-size: 1.4em;
            border-bottom: 2px solid #667eea;
            padding-bottom: 10px;
        }
        .metric {
            display: flex;
            justify-content: space-between;
            align-items: center;
            margin: 15px 0;
            padding: 10px;
            background: #f8f9fa;
            border-radius: 8px;
        }
        .metric-value {
            font-size: 1.8em;
            font-weight: bold;
            color: #667eea;
        }
        .status-badge {
            display: inline-block;
            padding: 5px 15px;
            border-radius: 20px;
            font-weight: bold;
            text-transform: uppercase;
            font-size: 0.85em;
        }
        .status-healthy { background: #d4edda; color: #155724; }
        .status-warning { background: #fff3cd; color: #856404; }
        .status-critical { background: #f8d7da; color: #721c24; }
        .alert {
            padding: 15px;
            border-radius: 8px;
            margin: 10px 0;
            border-left: 4px solid;
        }
        .alert-high { background: #f8d7da; border-color: #dc3545; }
        .alert-medium { background: #fff3cd; border-color: #ffc107; }
        .alert-low { background: #d1ecf1; border-color: #17a2b8; }
        .timestamp {
            text-align: center;
            color: white;
            margin-top: 30px;
            opacity: 0.8;
        }
        .progress-bar {
            width: 100%;
            height: 25px;
            background: #e9ecef;
            border-radius: 12px;
            overflow: hidden;
            margin: 10px 0;
        }
        .progress-fill {
            height: 100%;
            background: linear-gradient(90deg, #667eea, #764ba2);
            transition: width 0.5s;
            display: flex;
            align-items: center;
            justify-content: center;
            color: white;
            font-weight: bold;
        }
    </style>
</head>
<body>
    <div class=" ++ dq ++ "container" ++ dq ++ ">
        <h1>🧪 " ++ title ++ "</h1>
        
        <div class=" ++ dq ++ "dashboard-grid" ++ dq ++ ">
            <!-- System Health Card -->
            <div class=" ++ dq ++ "card" ++ dq ++ ">
                <h2>System Health</h2>
                <div class=" ++ dq ++ "status-badge status-" ++ status_class ++ dq ++ ">
                    " ++ status_text ++ "
                </div>
                " ++ healthMetrics ++ "
            </div>
            
            <!-- Performance Score Card -->
            <div class=" ++ dq ++ "card" ++ dq ++ ">
                <h2>Performance Score</h2>
                " ++ performanceMetrics ++ "
            </div>
            
            <!-- Repository Status Card -->
            <div class=" ++ dq ++ "card" ++ dq ++ ">
                <h2>Repository Status</h2>
                " ++ repoStatus ++ "
            </div>
            
            <!-- Alerts Card -->
            <div class=" ++ dq ++ "card" ++ dq ++ ">
                <h2>Active Alerts</h2>
                " ++ alertsHtml ++ "
            </div>
            
            <!-- Lab Metrics Card -->
            <div class=" ++ dq ++ "card" ++ dq ++ ">
                <h2>Lab Operations</h2>
                " ++ labMetrics ++ "
            </div>
            
            <!-- Workflow Status Card -->
            <div class=" ++ dq ++ "card" ++ dq ++ ">
                <h2>Workflow Status</h2>
                " ++ workflowStatus ++ "
            </div>
        </div>
        
        <div class=" ++ dq ++ "timestamp" ++ dq ++ ">
            Last Updated: " ++ now ++ "
        </div>
    </div>
    
    <script>
        // Auto-refresh every 60 seconds
        setTimeout(() => location.reload(), 60000);
    </script>
</body>
</html>".

Definition dashboard_saved_line (dashboardPath : string) : string :=
  "✓ Dashboard saved to " ++ dashboardPath.

Definition health_metric_row (key shown : string) : string :=
  "
            <div class=" ++ dq ++ "metric" ++ dq ++ ">
                <span>" ++ key ++ "</span>
                <span class=" ++ dq ++ "metric-value" ++ dq ++ ">" ++ shown ++ "</span>
            </div>
        ".

Definition performance_card (overall grade : string) : string :=
  "
            <div class=" ++ dq ++ "metric" ++ dq ++ ">
                <span>Overall Score</span>
                <span class=" ++ dq ++ "metric-value" ++ dq ++ ">" ++ overall ++ "%</span>
            </div>
            <div class=" ++ dq ++ "metric" ++ dq ++ ">
                <span>Grade</span>
                <span class=" ++ dq ++ "metric-value" ++ dq ++ ">" ++ grade ++ "</span>
            </div>
            <div class=" ++ dq ++ "progress-bar" ++ dq ++ ">
                <div class=" ++ dq ++ "progress-fill" ++ dq ++ " style=" ++ dq ++ "width: " ++ overall ++ "%" ++ dq ++ ">
                    " ++ overall ++ "%
                </div>
            </div>
        ".

Definition repo_card (total healthy with_tests : string) : string :=
  "
            <div class=" ++ dq ++ "metric" ++ dq ++ ">
                <span>Total Repositories</span>
                <span class=" ++ dq ++ "metric-value" ++ dq ++ ">" ++ total ++ "</span>
            </div>
            <div class=" ++ dq ++ "metric" ++ dq ++ ">
                <span>Healthy</span>
                <span class=" ++ dq ++ "metric-value" ++ dq ++ ">" ++ healthy ++ "</span>
            </div>
            <div class=" ++ dq ++ "metric" ++ dq ++ ">
                <span>With Tests</span>
                <span class=" ++ dq ++ "metric-value" ++ dq ++ ">" ++ with_tests ++ "</span>
            </div>
        ".

Definition alert_row (severity area message : string) : string :=
  "
            <div class=" ++ dq ++ "alert alert-" ++ severity ++ dq ++ ">
                <strong>" ++ area ++ "</strong><br>
                " ++ message ++ "
            </div>
        ".

Definition lab_card (tat qc samples : string) : string :=
  "
            <div class=" ++ dq ++ "metric" ++ dq ++ ">
                <span>TAT Compliance</span>
                <span class=" ++ dq ++ "metric-value" ++ dq ++ ">" ++ tat ++ "%</span>
            </div>
            <div class=" ++ dq ++ "metric" ++ dq ++ ">
                <span>QC Pass Rate</span>
                <span class=" ++ dq ++ "metric-value" ++ dq ++ ">" ++ qc ++ "%</span>
            </div>
            <div class=" ++ dq ++ "metric" ++ dq ++ ">
                <span>Samples Today</span>
                <span class=" ++ dq ++ "metric-value" ++ dq ++ ">" ++ samples ++ "</span>
            </div>
        ".

Definition workflow_card (automation pipeline quality : string) : string :=
  "
            <div class=" ++ dq ++ "metric" ++ dq ++ ">
                <span>Automation Rate</span>
                <span class=" ++ dq ++ "metric-value" ++ dq ++ ">" ++ automation ++ "%</span>
            </div>
            <div class=" ++ dq ++ "metric" ++ dq ++ ">
                <span>Pipeline Success</span>
                <span class=" ++ dq ++ "metric-value" ++ dq ++ ">" ++ pipeline ++ "%</span>
            </div>
            <div class=" ++ dq ++ "metric" ++ dq ++ ">
                <span>Data Quality</span>
                <span class=" ++ dq ++ "metric-value" ++ dq ++ ">" ++ quality ++ "%</span>
            </div>
        ".

Definition open_in_browser_line (dashboardPath : string) : string :=
  "📊 Open " ++ dashboardPath ++ " in your browser to view
".

(** ** The builder and its environment *)

Section Dashboard.
Context {N : JsNumber}.

(** An entry of [dashboardData.sections]. *)
Record section : Type := {
  sec_id : string;
  sec_title : string;
  sec_type : string;
  sec_data : value
}.

(** An entry of [dashboardData.alerts], as [buildSections] makes them. *)
Record alert : Type := {
  severity : value;
  area : value;
  message : string;
  impact : value
}.

(** [this.dashboardData].  The three reports are [undefined] until loaded. *)
Record dashboard_data : Type := {
  timestamp : string;
  title : string;
  version : string;
  sections : list section;
  metrics : value;
  alerts : list alert;
  health : value;
  repositories : value;
  performance : value
}.

(** What the three statements of a [try] block of [loadReports] meet:
    [readFileSync] throws, [JSON.parse] throws, or a value comes back. *)
Inductive parse_outcome : Type :=
| ReadThrows
| ParseThrows
| Parsed (v : value).

Record world : Type := {
  (** [process.cwd()] *)
  cwd : string;
  (** [JSON.parse(fs.readFileSync(path, 'utf8'))] *)
  read_json : string -> parse_outcome;
  (** whether [fs.writeFileSync(path, _)] succeeds *)
  writable : string -> bool;
  (** [new Date().toISOString()] in the constructor *)
  ctor_iso_time : string;
  (** [new Date().toISOString()] in [buildSections] *)
  sections_iso_time : string;
  (** [new Date().toLocaleString()] in [generateHTML] *)
  locale_time : string
}.

(** The builder object together with what the process has printed and
    written so far. *)
Record builder : Type := {
  dashboardData : dashboard_data;
  (** lines of [console.log], oldest first *)
  console : list string;
  (** files written, newest first: path and content *)
  written : list (string * string)
}.

Definition log (line : string) (b : builder) : builder :=
  {| dashboardData := dashboardData b;
     console := (console b ++ [line])%list;
     written := written b |}.

Definition with_data (d : dashboard_data) (b : builder) : builder :=
  {| dashboardData := d; console := console b; written := written b |}.

Definition writeFileSync (path content : string) (b : builder) : builder :=
  {| dashboardData := dashboardData b;
     console := console b;
     written := (path, content) :: written b |}.

Definition set_health (v : value) (d : dashboard_data) : dashboard_data :=
  {| timestamp := timestamp d; title := title d; version := version d;
     sections := sections d; metrics := metrics d; alerts := alerts d;
     health := v; repositories := repositories d; performance := performance d |}.

Definition set_repositories (v : value) (d : dashboard_data) : dashboard_data :=
  {| timestamp := timestamp d; title := title d; version := version d;
     sections := sections d; metrics := metrics d; alerts := alerts d;
     health := health d; repositories := v; performance := performance d |}.

Definition set_performance (v : value) (d : dashboard_data) : dashboard_data :=
  {| timestamp := timestamp d; title := title d; version := version d;
     sections := sections d; metrics := metrics d; alerts := alerts d;
     health := health d; repositories := repositories d; performance := v |}.

Definition set_alerts (a : list alert) (d : dashboard_data) : dashboard_data :=
  {| timestamp := timestamp d; title := title d; version := version d;
     sections := sections d; metrics := metrics d; alerts := a;
     health := health d; repositories := repositories d; performance := performance d |}.

Definition set_sections (l : list section) (d : dashboard_data) : dashboard_data :=
  {| timestamp := timestamp d; title := title d; version := version d;
     sections := l; metrics := metrics d; alerts := alerts d;
     health := health d; repositories := repositories d; performance := performance d |}.

(** [this.dashboardData.sections.push(s)]. *)
Definition push_section (s : section) (d : dashboard_data) : dashboard_data :=
  set_sections (sections d ++ [s])%list d.

(** [path.join(a, b)] for a normalized directory [a] and a plain name [b]. *)
Definition ends_with_slash (a : string) : bool :=
  match String.get (String.length a - 1) a with
  | Some c => Ascii.eqb c "/"%char
  | None => false
  end.

Definition path_join (a b : string) : string :=
  if ends_with_slash a then a ++ b else a ++ "/" ++ b.

(** The constructor. *)
Definition new_DashboardBuilder (w : world) : builder :=
  {| dashboardData :=
       {| timestamp := ctor_iso_time w;
          title := "Lab Automation Dashboard";
          version := "2.0.0";
          sections := [];
          metrics := VObj [];
          alerts := [];
          health := VUndef;
          repositories := VUndef;
          performance := VUndef |};
     console := [];
     written := [] |}.

(** ** [loadReports] *)

Definition reportsDir (w : world) : string := path_join (cwd w) "reports".

(** One [try]/[catch] block: parse the file, store the document and say so;
    on any exception only print the warning. *)
Definition load_report (w : world) (file : string)
    (store : value -> dashboard_data -> dashboard_data)
    (loaded_line warning_line : string) (b : builder) : builder :=
  match read_json w (path_join (reportsDir w) file) with
  | Parsed v => log loaded_line (with_data (store v (dashboardData b)) b)
  | ReadThrows | ParseThrows => log warning_line b
  end.

Definition loadReports (w : world) (b : builder) : builder :=
  let b := log "📊 Loading analysis reports..." b in
  let b := load_report w "health_report.json" set_health
             "✓ Health report loaded" "⚠️  Health report not found" b in
  let b := load_report w "repo_analysis.json" set_repositories
             "✓ Repository analysis loaded" "⚠️  Repository analysis not found" b in
  load_report w "performance_analysis.json" set_performance
    "✓ Performance analysis loaded" "⚠️  Performance analysis not found" b.

(** ** [buildSections] *)

Definition health_section (w : world) (d : dashboard_data) : section :=
  {| sec_id := "system-health";
     sec_title := "System Health";
     sec_type := "status";
     sec_data := VObj
       [ ("status", js_or (opt_member (health d) "status") (VStr "unknown"));
         ("checks", js_or (opt_member (health d) "checks") (VObj []));
         ("lastUpdate",
          js_or (opt_member (health d) "timestamp") (VStr (sections_iso_time w))) ] |}.

Definition performance_section (d : dashboard_data) : section :=
  let p := performance d in
  {| sec_id := "performance-metrics";
     sec_title := "Performance Metrics";
     sec_type := "metrics";
     sec_data := VObj
       [ ("tatCompliance",
          js_or (opt_path p ["lab_operations"; "tat_compliance"; "current"]) (VNum num_zero));
         ("qcPassRate",
          js_or (opt_path p ["lab_operations"; "qc_performance"; "pass_rate"]) (VNum num_zero));
         ("automationRate",
          js_or (opt_path p ["workflow_efficiency"; "automation_rate"; "current"]) (VNum num_zero));
         ("systemUptime",
          js_or (opt_path p ["system_performance"; "availability"; "uptime_percent"])
                (VNum num_zero)) ] |}.

Definition repository_section (d : dashboard_data) : section :=
  {| sec_id := "repository-status";
     sec_title := "Repository Status";
     sec_type := "table";
     sec_data := VObj
       [ ("repositories", js_or (opt_member (repositories d) "repositories") (VArr []));
         ("summary", js_or (opt_member (repositories d) "summary") (VObj [])) ] |}.

(** The callback of [bottlenecks.map]. *)
Definition alert_of_bottleneck (b : value) : result alert :=
  sev <- member b "severity" ;;
  ar <- member b "area" ;;
  ar' <- member b "area" ;;
  sa <- to_string ar' ;;
  cur <- member b "current_value" ;;
  sc <- to_string cur ;;
  tgt <- member b "target_value" ;;
  st <- to_string tgt ;;
  imp <- member b "impact" ;;
  Ok {| severity := sev; area := ar; message := alert_message sa sc st; impact := imp |}.

(** [v.map(f)]: only an array has the method, on anything else the call is
    a [TypeError]. *)
Definition array_map {B : Type} (f : value -> result B) (v : value) : result (list B) :=
  match v with
  | VArr l => mapM f l
  | _ => Throw TypeError
  end.

(** The three [sections.push] statements. *)
Definition push_sections (w : world) (d : dashboard_data) : dashboard_data :=
  let d := push_section (health_section w d) d in
  let d := push_section (performance_section d) d in
  push_section (repository_section d) d.

(** The statement under the comment "Alerts Section". *)
Definition derive_alerts (d : dashboard_data) : result dashboard_data :=
  nonempty <- gt_zero (opt_path (performance d) ["bottlenecks"; "length"]) ;;
  if (nonempty : bool) then
    bs <- member (performance d) "bottlenecks" ;;
    al <- array_map alert_of_bottleneck bs ;;
    Ok (set_alerts al d)
  else Ok d.

Definition buildSections (w : world) (b : builder) : result builder :=
  let b := log "🔨 Building dashboard sections..." b in
  let d := push_sections w (dashboardData b) in
  d <- derive_alerts d ;;
  Ok (log (built_sections_line (nat_to_string (List.length (sections d))))
          (with_data d b)).

(** ** The cards *)

(** The callback of [Object.entries(metrics).slice(0, 3).map]. *)
Definition render_metric (kv : string * value) : result string :=
  let (key, value) := kv in
  shown <- match value with
           | VNum n => Ok (num_to_fixed1 n)
           | _ => to_string value
           end ;;
  Ok (health_metric_row (underscores_to_spaces key) shown).

Definition generateHealthMetrics (d : dashboard_data) : result string :=
  let health := health d in
  if negb (truthy health) then Ok "<p>No health data available</p>"
  else
    m <- member health "metrics" ;;
    let metrics := js_or m (VObj []) in
    rows <- mapM render_metric (slice0 3 (entries metrics)) ;;
    Ok (join "" rows).

Definition generatePerformanceMetrics (d : dashboard_data) : result string :=
  let perf := opt_member (performance d) "performance_score" in
  if negb (truthy perf) then Ok "<p>No performance data available</p>"
  else
    o <- member perf "overall" ;;
    overall <- to_string (js_or o (VNum num_zero)) ;;
    g <- member perf "grade" ;;
    grade <- to_string (js_or g (VStr "N/A")) ;;
    Ok (performance_card overall grade).

Definition generateRepoStatus (d : dashboard_data) : result string :=
  let repos := opt_member (repositories d) "summary" in
  if negb (truthy repos) then Ok "<p>No repository data available</p>"
  else
    t <- member repos "total_repositories" ;;
    total <- to_string (js_or t (VNum num_zero)) ;;
    h <- member repos "healthy" ;;
    healthy <- to_string (js_or h (VNum num_zero)) ;;
    wt <- member repos "with_tests" ;;
    with_tests <- to_string (js_or wt (VNum num_zero)) ;;
    Ok (repo_card total healthy with_tests).

Definition no_active_alerts : string :=
  "<p style=" ++ dq ++ "color: green;" ++ dq ++ ">✓ No active alerts</p>".

Definition render_alert (a : alert) : result string :=
  sev <- to_string (severity a) ;;
  ar <- to_string (area a) ;;
  Ok (alert_row sev ar (message a)).

Definition generateAlerts (d : dashboard_data) : result string :=
  match alerts d with
  | [] => Ok no_active_alerts
  | _ :: _ =>
      rows <- mapM render_alert (slice0 3 (alerts d)) ;;
      Ok (join "" rows)
  end.

Definition generateLabMetrics (d : dashboard_data) : result string :=
  let lab := opt_member (performance d) "lab_operations" in
  if negb (truthy lab) then Ok "<p>No lab data available</p>"
  else
    t <- member lab "tat_compliance" ;;
    tat <- to_string (js_or (opt_member t "current") (VNum num_zero)) ;;
    q <- member lab "qc_performance" ;;
    qc <- to_string (js_or (opt_member q "pass_rate") (VNum num_zero)) ;;
    s <- member lab "sample_volume" ;;
    samples <- to_string (js_or (opt_member s "daily_average") (VNum num_zero)) ;;
    Ok (lab_card tat qc samples).

Definition generateWorkflowStatus (d : dashboard_data) : result string :=
  let workflow := opt_member (performance d) "workflow_efficiency" in
  if negb (truthy workflow) then Ok "<p>No workflow data available</p>"
  else
    a <- member workflow "automation_rate" ;;
    automation <- to_string (js_or (opt_member a "current") (VNum num_zero)) ;;
    p <- member workflow "pipeline_performance" ;;
    pipeline <- to_string (js_or (opt_member p "github_actions_success_rate") (VNum num_zero)) ;;
    q <- member workflow "data_quality" ;;
    quality <- to_string (js_or (opt_member q "validation_pass_rate") (VNum num_zero)) ;;
    Ok (workflow_card automation pipeline quality).

(** ** [generateHTML], [build] and the main program *)

(** The two placeholders of the status badge: its class and its text. *)
Definition status_badge_class (d : dashboard_data) : result string :=
  to_string (js_or (opt_member (health d) "status") (VStr "unknown")).

Definition status_badge_text (d : dashboard_data) : result string :=
  to_string (js_or (opt_member (health d) "status") (VStr "Unknown")).

(** The template literal bound to [html]. *)
Definition render (now : string) (d : dashboard_data) : result string :=
  status_class <- status_badge_class d ;;
  status_text <- status_badge_text d ;;
  healthMetrics <- generateHealthMetrics d ;;
  performanceMetrics <- generatePerformanceMetrics d ;;
  repoStatus <- generateRepoStatus d ;;
  alertsHtml <- generateAlerts d ;;
  labMetrics <- generateLabMetrics d ;;
  workflowStatus <- generateWorkflowStatus d ;;
  Ok (html_page (title d) status_class status_text healthMetrics performanceMetrics
                repoStatus alertsHtml labMetrics workflowStatus now).

Definition generateHTML (w : world) (b : builder) : result (string * builder) :=
  let b := log "📝 Generating HTML dashboard..." b in
  html <- render (locale_time w) (dashboardData b) ;;
  let dashboardPath := path_join (cwd w) "dashboard.html" in
  if writable w dashboardPath then
    let b := writeFileSync dashboardPath html b in
    Ok (dashboardPath, log (dashboard_saved_line dashboardPath) b)
  else Throw WriteError.

(** [build], with the step that stands for [this.buildSections()] left
    open so that variants of that step can be compared. *)
Definition build_with (sections_step : world -> builder -> result builder)
    (w : world) (b : builder) : result (Z * builder) :=
  let b := log "
🚀 Building Enhanced Dashboard...
" b in
  let b := loadReports w b in
  b <- sections_step w b ;;
  pb <- generateHTML w b ;;
  let (dashboardPath, b) := (pb : string * builder) in
  let b := log "
✅ Dashboard built successfully!" b in
  let b := log (open_in_browser_line dashboardPath) b in
  Ok (0%Z, b).

Definition build : world -> builder -> result (Z * builder) :=
  build_with buildSections.

(** What the operating system sees of a run. *)
Record outcome : Type := {
  exit_code : Z;
  files : list (string * string)
}.

(** [process.exit(new DashboardBuilder().build())]; an exception that
    nothing catches ends the process with code 1. *)
Definition main_with (sections_step : world -> builder -> result builder)
    (w : world) : outcome :=
  match build_with sections_step w (new_DashboardBuilder w) with
  | Ok (code, b) => {| exit_code := code; files := written b |}
  | Throw _ => {| exit_code := 1%Z; files := [] |}
  end.

Definition main : world -> outcome := main_with buildSections.

(** [buildSections] with the three [sections.push] statements taken out;
    only used to compare the two. *)
Definition buildSections_without_push (w : world) (b : builder) : result builder :=
  let b := log "🔨 Building dashboard sections..." b in
  d <- derive_alerts (dashboardData b) ;;
  Ok (log (built_sections_line (nat_to_string (List.length (sections d))))
          (with_data d b)).

(** The location of the three reports and of the page. *)
Definition health_report_path (w : world) : string :=
  path_join (reportsDir w) "health_report.json".
Definition repo_analysis_path (w : world) : string :=
  path_join (reportsDir w) "repo_analysis.json".
Definition performance_analysis_path (w : world) : string :=
  path_join (reportsDir w) "performance_analysis.json".
Definition dashboard_path (w : world) : string :=
  path_join (cwd w) "dashboard.html".

End Dashboard.

(** ** The webhook endpoint *)

Section Webhook.
Context {N : JsNumber}.

(** The body of an inbound POST: text that is not JSON, or a document. *)
Inductive request_body : Type :=
| Malformed
| Json (v : value).

Record request : Type := {
  req_body : request_body;
  (** the shared-secret signature header, when the request carries one *)
  req_signature : option string
}.

Inductive response_body : Type :=
| JsonBody (v : value)
| Acknowledged
| ParseError
| Rejected.

Record response : Type := {
  resp_status : nat;
  resp_body : response_body
}.

(** A verification request is a body of the form [{ "challenge": X }]
    with [X] a string. *)
Definition challenge_of (v : value) : option string :=
  match v with
  | VObj [(k, VStr x)] => if String.eqb k "challenge" then Some x else None
  | _ => None
  end.

Definition signature_accepted (secret : option string) (r : request) : bool :=
  match secret with
  | None => true
  | Some s =>
      match req_signature r with
      | Some sig => String.eqb sig s
      | None => false
      end
  end.

(** Modelled from the spec: the webhook server
    ([scripts/notion_webhook_server.py]) is not among the sources, only the
    setup guides that call it.  Section 4.1 of the specification: a
    malformed body is answered 400; a verification challenge is answered
    200 with the same challenge; any other body is checked against the
    configured secret (if any), answered 401 on a mismatch and acknowledged
    with 200 otherwise. *)
Definition webhook (secret : option string) (r : request) : response :=
  match req_body r with
  | Malformed => {| resp_status := 400; resp_body := ParseError |}
  | Json v =>
      match challenge_of v with
      | Some x =>
          {| resp_status := 200;
             resp_body := JsonBody (VObj [("challenge", VStr x)]) |}
      | None =>
          if signature_accepted secret r
          then {| resp_status := 200; resp_body := Acknowledged |}
          else {| resp_status := 401; resp_body := Rejected |}
      end
  end.

End Webhook.

(** ** Predicates the properties are stated with *)

Section Predicates.
Context {N : JsNumber}.

(** No object anywhere inside the value has an own property named
    [toString]. *)
Fixpoint plain (v : value) : bool :=
  match v with
  | VArr l => forallb plain l
  | VObj l => negb (has_key "toString" l) && forallb (fun kv => plain (snd kv)) l
  | _ => true
  end.

(** The [bottlenecks] of a performance report are missing, or an array
    without [null] entries. *)
Definition bottlenecks_listed (p : value) : bool :=
  match opt_member p "bottlenecks" with
  | VUndef | VNull => true
  | VArr l => forallb (fun b => negb (nullish b)) l
  | _ => false
  end.

Definition plain_outcome (o : parse_outcome) : bool :=
  match o with
  | Parsed v => plain v
  | ReadThrows | ParseThrows => true
  end.

(** What a [try] block of [loadReports] leaves in the field it loads. *)
Definition loaded (o : parse_outcome) (before : value) : value :=
  match o with
  | Parsed v => v
  | ReadThrows | ParseThrows => before
  end.

Definition load_line (o : parse_outcome) (loaded_line warning_line : string) : string :=
  match o with
  | Parsed _ => loaded_line
  | ReadThrows | ParseThrows => warning_line
  end.

Definition failed (o : parse_outcome) : bool :=
  match o with
  | Parsed _ => false
  | ReadThrows | ParseThrows => true
  end.

(** The reports a run can load are such that no step throws a
    [TypeError]. *)
Definition well_shaped (w : world) : bool :=
  plain_outcome (read_json w (health_report_path w))
  && plain_outcome (read_json w (repo_analysis_path w))
  && plain_outcome (read_json w (performance_analysis_path w))
  && bottlenecks_listed (loaded (read_json w (performance_analysis_path w)) VUndef).

(** The fields of the builder's data that the page is made of. *)
Definition same_view (d1 d2 : dashboard_data) : Prop :=
  title d1 = title d2 /\ health d1 = health d2 /\
  repositories d1 = repositories d2 /\ performance d1 = performance d2 /\
  alerts d1 = alerts d2.

(** The record the specification maps a bottleneck to. *)
Definition alert_for (b : value) (a : alert) : Prop :=
  severity a = prop b "severity" /\
  area a = prop b "area" /\
  impact a = prop b "impact" /\
  exists sa sc st,
    to_string (prop b "area") = Ok sa /\
    to_string (prop b "current_value") = Ok sc /\
    to_string (prop b "target_value") = Ok st /\
    message a = sa ++ ": " ++ sc ++ " (target: " ++ st ++ ")".

(** A bottleneck entry that is not [null] and whose printed fields can be
    converted to text. *)
Definition bottleneck_entry (b : value) : bool :=
  negb (nullish b)
  && plain (prop b "area") && plain (prop b "current_value")
  && plain (prop b "target_value").

(** The data of a builder whose conversions to text cannot throw. *)
Definition plain_alert (a : alert) : bool :=
  plain (severity a) && plain (area a).

Definition plain_data (d : dashboard_data) : bool :=
  plain (health d) && plain (repositories d) && plain (performance d)
  && forallb plain_alert (alerts d).

(** The data of the builder when [build] has loaded the reports. *)
Definition loaded_data (w : world) : dashboard_data :=
  {| timestamp := ctor_iso_time w;
     title := "Lab Automation Dashboard";
     version := "2.0.0";
     sections := [];
     metrics := VObj [];
     alerts := [];
     health := loaded (read_json w (health_report_path w)) VUndef;
     repositories := loaded (read_json w (repo_analysis_path w)) VUndef;
     performance := loaded (read_json w (performance_analysis_path w)) VUndef |}.

(** How a run ends when an exception escapes, and when the page is
    written. *)
Definition crashed : outcome := {| exit_code := 1%Z; files := [] |}.

Definition page_written (w : world) (html : string) : outcome :=
  {| exit_code := 0%Z; files := [(dashboard_path w, html)] |}.

(** A run in terms of the loaded data: derive the alerts, render, write. *)
Definition run_on_loaded (w : world) : outcome :=
  match derive_alerts (loaded_data w) with
  | Throw _ => crashed
  | Ok d =>
      match render (locale_time w) d with
      | Throw _ => crashed
      | Ok html =>
          if writable w (dashboard_path w) then page_written w html else crashed
      end
  end.



(** What the statement under "Alerts Section" computes from the
    performance report alone: [None] when the test of the [if] is false,
    the new alerts otherwise. *)
Definition derived_alerts (p : value) : result (option (list alert)) :=
  nonempty <- gt_zero (opt_path p ["bottlenecks"; "length"]) ;;
  if (nonempty : bool) then
    bs <- member p "bottlenecks" ;;
    al <- array_map alert_of_bottleneck bs ;;
    Ok (Some al)
  else Ok None.

(** Bottlenecks on which the test [length > 0] is false whatever the
    numbers are: missing, [null], a boolean, a number, the empty string,
    the empty array, an object without a [length]. *)
Definition no_bottlenecks (p : value) : bool :=
  match opt_member p "bottlenecks" with
  | VUndef | VNull | VBool _ | VNum _ => true
  | VStr s => String.eqb s ""
  | VArr l => match l with [] => true | _ :: _ => false end
  | VObj l => negb (has_key "length" l)
  end.

(** A result whose only exception is a [TypeError]. *)
Definition only_type_errors {A : Type} (r : result A) : Prop :=
  forall e, r = Throw e -> e = TypeError.

(** The text of the page after the time of the last update. *)
Definition page_tail : string :=
  "
        </div>
    </div>
    
    <script>
        // Auto-refresh every 60 seconds
        setTimeout(() => location.reload(), 60000);
    </script>
</body>
</html>".

Definition newline : ascii := ascii_of_nat 10.

Definition underscore : ascii := "_"%char.

(** The characters of a string. *)
Fixpoint chars (s : string) : list ascii :=
  match s with
  | EmptyString => []
  | String c r => c :: chars r
  end.


(** The value converts to text without an exception. *)
Definition converts (v : value) : bool :=
  match to_string v with
  | Ok _ => true
  | Throw _ => false
  end.

(** A bottleneck entry on which the callback of [map] does not throw: it
    is not [null], and the three fields of the message convert to text. *)
Definition convertible_entry (b : value) : bool :=
  negb (nullish b)
  && converts (prop b "area") && converts (prop b "current_value")
  && converts (prop b "target_value").

(** The texts occur in the page one after the other, in this order. *)
Fixpoint in_order (parts : list string) (page : string) : Prop :=
  match parts with
  | [] => True
  | s :: r => exists A B, page = A ++ s ++ B /\ in_order r B
  end.



(** [strip_prefix p s] is what follows [p] in [s] when [s] starts with
    [p]. *)
Fixpoint strip_prefix (p s : string) : option string :=
  match p, s with
  | EmptyString, _ => Some s
  | String a p', String b s' => if Ascii.eqb a b then strip_prefix p' s' else None
  | String _ _, EmptyString => None
  end.

(** [split_at p s] cuts [s] around the first occurrence of [p]. *)
Fixpoint split_at (p s : string) : option (string * string) :=
  match strip_prefix p s with
  | Some r => Some (EmptyString, r)
  | None =>
      match s with
      | EmptyString => None
      | String c s' =>
          match split_at p s' with
          | Some (a, b) => Some (String c a, b)
          | None => None
          end
      end
  end.



End Predicates.

(** ** Inputs the model is run on *)

(** A world whose working directory is [/app], with the given outcomes for
    the three reports. *)
Definition demo_world (h r p : parse_outcome) (can_write : bool) (now : string) : world :=
  {| cwd := "/app";
     read_json := fun path =>
       if String.eqb path "/app/reports/health_report.json" then h
       else if String.eqb path "/app/reports/repo_analysis.json" then r
       else if String.eqb path "/app/reports/performance_analysis.json" then p
       else ReadThrows;
     writable := fun _ => can_write;
     ctor_iso_time := "2024-01-01T00:00:00.000Z";
     sections_iso_time := "2024-01-01T00:00:00.001Z";
     locale_time := now |}.

Definition degraded_health : value := VObj [("status", VStr "degraded")].

(** A performance report whose only bottleneck entry is [null]. *)
Definition null_bottleneck_report : value := VObj [("bottlenecks", VArr [VNull])].

(** No report can be loaded, the page can be written. *)
Definition absent_world : world :=
  demo_world ReadThrows ParseThrows ReadThrows true "1/1/2024, 10:00:00 AM".


(** The performance report parses and its bottlenecks are [[null]]. *)
Definition null_bottleneck_world : world :=
  demo_world ReadThrows ReadThrows (Parsed null_bottleneck_report) true
    "1/1/2024, 10:00:00 AM".

(** The same reports at two different times of the day. *)
Definition morning_world : world :=
  demo_world (Parsed degraded_health) ReadThrows
    (Parsed (VObj [("lab_operations", VObj [("tat_compliance", VObj [("current", VNum (Some 95%Z))])])]))
    true "1/1/2024, 10:00:00 AM".

Definition evening_world : world :=
  demo_world (Parsed degraded_health) ReadThrows
    (Parsed (VObj [("lab_operations", VObj [("tat_compliance", VObj [("current", VNum (Some 95%Z))])])]))
    true "1/1/2024, 10:00:00 PM".


(** Data with four alerts and a health report with four metrics. *)
Definition four_alerts : list alert :=
  map (fun k => {| severity := VStr "high"; area := VStr k;
                   message := k; impact := VUndef |})
      ["a"; "b"; "c"; "d"].

Definition four_metrics_health : value :=
  VObj [("status", VStr "healthy");
        ("metrics", VObj [("cpu_usage", VNum (Some 41%Z)); ("memory_usage", VNum (Some 63%Z));
                          ("disk_usage", VStr "low"); ("queue_depth", VNum (Some 7%Z))])].

Definition crowded_data : dashboard_data :=
  set_alerts four_alerts
    (set_health four_metrics_health (dashboardData (new_DashboardBuilder absent_world))).


(** A builder that has loaded a performance report with one bottleneck
    that has no fields. *)
Definition empty_bottleneck_builder : builder :=
  with_data (set_performance (VObj [("bottlenecks", VArr [VObj []])])
               (dashboardData (new_DashboardBuilder absent_world)))
            (new_DashboardBuilder absent_world).

(** Two bottlenecks, the second without a target and an impact. *)
Definition two_bottlenecks : list value :=
  [ VObj [("severity", VStr "high"); ("area", VStr "TAT");
          ("current_value", VNum (Some 72%Z));
          ("target_value", VNum (Some 90%Z));
          ("impact", VStr "Delayed results")];
    VObj [("severity", VStr "low"); ("area", VStr "QC");
          ("current_value", VNum (Some 97%Z))] ].

Definition two_bottlenecks_report : value :=
  VObj [("bottlenecks", VArr two_bottlenecks)].

(** A builder that has loaded [two_bottlenecks_report]. *)
Definition two_bottlenecks_builder : builder :=
  with_data (set_performance two_bottlenecks_report
               (dashboardData (new_DashboardBuilder absent_world)))
            (new_DashboardBuilder absent_world).

(** The performance report parses and its bottlenecks are a string. *)
Definition string_bottlenecks_world : world :=
  demo_world ReadThrows ReadThrows
    (Parsed (VObj [("bottlenecks", VStr "TAT is late")])) true
    "1/1/2024, 10:00:00 AM".

(** The reports load, the page cannot be written. *)
Definition read_only_world : world :=
  demo_world (Parsed degraded_health) ReadThrows ReadThrows false
    "1/1/2024, 10:00:00 AM".

(** A performance report with five bottlenecks. *)
Definition five_bottlenecks : list value :=
  map (fun k => VObj [("severity", VStr "high"); ("area", VStr k)])
      ["a"; "b"; "c"; "d"; "e"].

Definition five_bottlenecks_builder : builder :=
  with_data (set_performance (VObj [("bottlenecks", VArr five_bottlenecks)])
               (dashboardData (new_DashboardBuilder absent_world)))
            (new_DashboardBuilder absent_world).

(** A builder that already carries alerts and loads a report with an empty
    list of bottlenecks. *)
Definition stale_alerts_builder : builder :=
  with_data (set_performance (VObj [("bottlenecks", VArr [])]) crowded_data)
            (new_DashboardBuilder absent_world).



(** A builder whose performance report has [null] as its only bottleneck. *)
Definition null_bottleneck_builder : builder :=
  with_data (set_performance null_bottleneck_report
               (dashboardData (new_DashboardBuilder absent_world)))
            (new_DashboardBuilder absent_world).

(** A bottleneck whose area is an object with an own property [toString]. *)
Definition unconvertible_area : value :=
  VObj [("severity", VStr "high");
        ("area", VObj [("toString", VStr "TAT")]);
        ("current_value", VNum (Some 72%Z));
        ("target_value", VNum (Some 90%Z))].

Definition unconvertible_area_builder : builder :=
  with_data (set_performance (VObj [("bottlenecks", VArr [unconvertible_area])])
               (dashboardData (new_DashboardBuilder absent_world)))
            (new_DashboardBuilder absent_world).

(** ** Auxiliary facts *)

Lemma append_assoc (a b c : string) : (a ++ b) ++ c = a ++ b ++ c.
Proof.
  induction a as [|x a IH]; simpl.
  - reflexivity.
  - now rewrite IH.
Qed.

Lemma mapM_ok {A B : Type} (f : A -> result B) (l : list A) :
  Forall (fun x => exists y, f x = Ok y) l ->
  exists ys, mapM f l = Ok ys /\ Forall2 (fun x y => f x = Ok y) l ys.
Proof.
  induction 1 as [|x l [y Hy] _ [ys [Hys HF]]]; simpl.
  - exists []. split; [reflexivity | constructor].
  - exists (y :: ys). rewrite Hy. simpl. rewrite Hys. simpl.
    split; [reflexivity | now constructor].
Qed.

Lemma mapM_Forall2 {A B : Type} (f : A -> result B) (l : list A) (ys : list B) :
  mapM f l = Ok ys -> Forall2 (fun x y => f x = Ok y) l ys.
Proof.
  revert ys. induction l as [|x l IH]; simpl; intros ys H.
  - injection H as <-. constructor.
  - destruct (f x) as [y|e] eqn:Hx; simpl in H; [|discriminate].
    destruct (mapM f l) as [zs|e] eqn:Hl; simpl in H; [|discriminate].
    injection H as <-. constructor; [assumption | now apply IH].
Qed.

Lemma Forall2_in_right {A B : Type} (R : A -> B -> Prop) (l : list A) (l' : list B)
    (y : B) :
  Forall2 R l l' -> In y l' -> exists x, In x l /\ R x y.
Proof.
  induction 1 as [|x z l l' Hxz _ IH]; simpl; intros Hin.
  - contradiction.
  - destruct Hin as [<-|Hin].
    + exists x. auto.
    + destruct (IH Hin) as [x' [Hx' HR]]. exists x'. auto.
Qed.

Lemma mapM_ext {A B : Type} (f g : A -> result B) (l : list A) :
  Forall (fun x => f x = g x) l -> mapM f l = mapM g l.
Proof.
  induction 1 as [|x l Hx _ IH]; simpl.
  - reflexivity.
  - now rewrite Hx, IH.
Qed.

Lemma Forall_firstn {A : Type} (P : A -> Prop) (n : nat) (l : list A) :
  Forall P l -> Forall P (firstn n l).
Proof.
  intros H. revert n. induction H as [|x l Hx _ IH]; intros [|n]; simpl;
    constructor; auto.
Qed.

Lemma firstn_firstn_same {A : Type} (n : nat) (l : list A) :
  firstn n (firstn n l) = firstn n l.
Proof.
  rewrite firstn_firstn. now rewrite Nat.min_id.
Qed.

Section ValueFacts.
Context {N : JsNumber}.

(** Induction on a value that reaches the elements of arrays and the
    properties of objects. *)
Section ValueInduction.
Variable P : value -> Prop.
Hypothesis Pundef : P VUndef.
Hypothesis Pnull : P VNull.
Hypothesis Pbool : forall b, P (VBool b).
Hypothesis Pnum : forall n, P (VNum n).
Hypothesis Pstr : forall s, P (VStr s).
Hypothesis Parr : forall l, Forall P l -> P (VArr l).
Hypothesis Pobj : forall l, Forall (fun kv => P (snd kv)) l -> P (VObj l).

Fixpoint value_nested_ind (v : value) : P v :=
  match v with
  | VUndef => Pundef
  | VNull => Pnull
  | VBool b => Pbool b
  | VNum n => Pnum n
  | VStr s => Pstr s
  | VArr l =>
      Parr l ((fix go (l : list value) : Forall P l :=
                 match l with
                 | [] => Forall_nil P
                 | x :: r => Forall_cons x (value_nested_ind x) (go r)
                 end) l)
  | VObj l =>
      Pobj l ((fix go (l : list (string * value)) : Forall (fun kv => P (snd kv)) l :=
                 match l with
                 | [] => Forall_nil _
                 | kv :: r => Forall_cons kv (value_nested_ind (snd kv)) (go r)
                 end) l)
  end.
End ValueInduction.

Lemma truthy_not_nullish (v : value) : truthy v = true -> nullish v = false.
Proof. destruct v; simpl; congruence. Qed.

Lemma member_truthy (v : value) (k : string) :
  truthy v = true -> member v k = Ok (prop v k).
Proof.
  intros H. unfold member. now rewrite (truthy_not_nullish v H).
Qed.



Lemma plain_to_string (v : value) :
  plain v = true -> exists s, to_string v = Ok s.
Proof.
  induction v as [| | b | n | s | l IH | l IH] using value_nested_ind;
    simpl; intros Hp; try (eexists; reflexivity).
  - assert (H : Forall (fun x => exists y,
                (if nullish x then Ok "" else to_string x) = Ok y) l).
    { rewrite forallb_forall in Hp. rewrite Forall_forall in IH |- *.
      intros x Hx. destruct (nullish x); [eexists; reflexivity|].
      apply IH; auto. }
    destruct (mapM_ok _ _ H) as [ys [Hys _]]. rewrite Hys. simpl.
    eexists; reflexivity.
  - apply andb_true_iff in Hp. destruct Hp as [Hk _].
    apply negb_true_iff in Hk. rewrite Hk. eexists; reflexivity.
Qed.

Lemma plain_lookup (k : string) (l : list (string * value)) (x : value) :
  forallb (fun kv => plain (snd kv)) l = true ->
  lookup k l = Some x -> plain x = true.
Proof.
  induction l as [|[k' v] l IH]; simpl; intros Hp Hl.
  - discriminate.
  - apply andb_true_iff in Hp. destruct Hp as [Hv Hr].
    destruct (String.eqb k k').
    + injection Hl as <-. exact Hv.
    + now apply IH.
Qed.

Lemma plain_prop (v : value) (k : string) :
  plain v = true -> plain (prop v k) = true.
Proof.
  destruct v as [| | b | n | s | l | l]; simpl; intros Hp; try reflexivity.
  - destruct (String.eqb k "length"); reflexivity.
  - destruct (String.eqb k "length"); reflexivity.
  - apply andb_true_iff in Hp. destruct Hp as [_ Hr].
    destruct (lookup k l) as [x|] eqn:Hl; [|reflexivity].
    now apply (plain_lookup k l).
Qed.

Lemma plain_opt_member (v : value) (k : string) :
  plain v = true -> plain (opt_member v k) = true.
Proof.
  intros Hp. unfold opt_member. destruct (nullish v); [reflexivity|].
  now apply plain_prop.
Qed.

Lemma plain_js_or (a b : value) :
  plain a = true -> plain b = true -> plain (js_or a b) = true.
Proof. intros Ha Hb. unfold js_or. now destruct (truthy a). Qed.

Lemma plain_array_entries (l : list value) (i : nat) :
  forallb plain l = true ->
  Forall (fun kv => plain (snd kv) = true) (array_entries i l).
Proof.
  revert i. induction l as [|x l IH]; simpl; intros i Hp.
  - constructor.
  - apply andb_true_iff in Hp. destruct Hp as [Hx Hl].
    constructor; [exact Hx | now apply IH].
Qed.

Lemma plain_string_entries (s : string) (i : nat) :
  Forall (fun kv => plain (snd kv) = true) (string_entries i s).
Proof.
  revert i. induction s as [|c s IH]; simpl; intros i; constructor.
  - reflexivity.
  - apply IH.
Qed.

Lemma plain_entries (v : value) :
  plain v = true -> Forall (fun kv => plain (snd kv) = true) (entries v).
Proof.
  destruct v as [| | b | n | s | l | l]; simpl; intros Hp; try constructor.
  - apply plain_string_entries.
  - now apply plain_array_entries.
  - apply andb_true_iff in Hp. destruct Hp as [_ Hr].
    rewrite forallb_forall in Hr. apply Forall_forall. auto.
Qed.

End ValueFacts.

Section DashboardFacts.
Context {N : JsNumber}.

Ltac solve_plain :=
  repeat first
    [ assumption
    | reflexivity
    | apply plain_js_or
    | apply plain_opt_member
    | apply plain_prop ].

(** Discharge the next conversion to text of a plain value. *)
Ltac step_to_string :=
  match goal with
  | |- context [to_string ?v] =>
      let s := fresh "s" in
      let H := fresh "Hs" in
      destruct (plain_to_string v) as [s H];
      [ solve_plain | rewrite H; cbn [bind] ]
  end.

Lemma render_metric_ok (kv : string * value) :
  plain (snd kv) = true -> exists row, render_metric kv = Ok row.
Proof.
  destruct kv as [key v]. simpl. intros Hp.
  destruct (plain_to_string v Hp) as [s Hs].
  destruct v; simpl in *; try (injection Hs as <-); eexists; try reflexivity.
  - rewrite Hs. reflexivity.
  - rewrite Hs. reflexivity.
Qed.

Lemma generateHealthMetrics_ok (d : dashboard_data) :
  plain (health d) = true -> exists s, generateHealthMetrics d = Ok s.
Proof.
  intros Hp. unfold generateHealthMetrics.
  destruct (truthy (health d)) eqn:Ht; cbn [negb].
  - rewrite (member_truthy _ _ Ht). cbn [bind].
    assert (Hm : plain (js_or (prop (health d) "metrics") (VObj [])) = true)
      by solve_plain.
    apply plain_entries in Hm.
    apply (Forall_firstn _ 3) in Hm.
    destruct (mapM_ok render_metric (slice0 3 (entries (js_or (prop (health d) "metrics") (VObj [])))))
      as [rows [Hrows _]].
    { unfold slice0. eapply Forall_impl; [|exact Hm].
      intros kv Hkv. now apply render_metric_ok. }
    rewrite Hrows. cbn [bind]. eexists; reflexivity.
  - eexists; reflexivity.
Qed.

Lemma generatePerformanceMetrics_ok (d : dashboard_data) :
  plain (performance d) = true -> exists s, generatePerformanceMetrics d = Ok s.
Proof.
  intros Hp. unfold generatePerformanceMetrics.
  destruct (truthy (opt_member (performance d) "performance_score")) eqn:Ht; cbn [negb].
  - rewrite !(member_truthy _ _ Ht). cbn [bind].
    do 2 step_to_string. eexists; reflexivity.
  - eexists; reflexivity.
Qed.

Lemma generateRepoStatus_ok (d : dashboard_data) :
  plain (repositories d) = true -> exists s, generateRepoStatus d = Ok s.
Proof.
  intros Hp. unfold generateRepoStatus.
  destruct (truthy (opt_member (repositories d) "summary")) eqn:Ht; cbn [negb].
  - rewrite !(member_truthy _ _ Ht). cbn [bind].
    do 3 step_to_string. eexists; reflexivity.
  - eexists; reflexivity.
Qed.

Lemma generateLabMetrics_ok (d : dashboard_data) :
  plain (performance d) = true -> exists s, generateLabMetrics d = Ok s.
Proof.
  intros Hp. unfold generateLabMetrics.
  destruct (truthy (opt_member (performance d) "lab_operations")) eqn:Ht; cbn [negb].
  - rewrite !(member_truthy _ _ Ht). cbn [bind].
    do 3 step_to_string. eexists; reflexivity.
  - eexists; reflexivity.
Qed.

Lemma generateWorkflowStatus_ok (d : dashboard_data) :
  plain (performance d) = true -> exists s, generateWorkflowStatus d = Ok s.
Proof.
  intros Hp. unfold generateWorkflowStatus.
  destruct (truthy (opt_member (performance d) "workflow_efficiency")) eqn:Ht; cbn [negb].
  - rewrite !(member_truthy _ _ Ht). cbn [bind].
    do 3 step_to_string. eexists; reflexivity.
  - eexists; reflexivity.
Qed.

Lemma render_alert_ok (a : alert) :
  plain_alert a = true -> exists row, render_alert a = Ok row.
Proof.
  unfold plain_alert, render_alert. intros Hp.
  apply andb_true_iff in Hp. destruct Hp as [Hs Ha].
  do 2 step_to_string. eexists; reflexivity.
Qed.

Lemma generateAlerts_ok (d : dashboard_data) :
  forallb plain_alert (alerts d) = true -> exists s, generateAlerts d = Ok s.
Proof.
  intros Hp. unfold generateAlerts.
  destruct (alerts d) as [|a l] eqn:Ha.
  - eexists; reflexivity.
  - destruct (mapM_ok render_alert (slice0 3 (a :: l))) as [rows [Hrows _]].
    { unfold slice0. apply Forall_firstn. rewrite forallb_forall in Hp.
      apply Forall_forall. intros x Hx. apply render_alert_ok. now apply Hp. }
    rewrite Hrows. cbn [bind]. eexists; reflexivity.
Qed.

Lemma render_ok (now : string) (d : dashboard_data) :
  plain_data d = true -> exists html, render now d = Ok html.
Proof.
  unfold plain_data. intros Hp.
  repeat (apply andb_true_iff in Hp; destruct Hp as [Hp ?]).
  unfold render, status_badge_class, status_badge_text.
  do 2 step_to_string.
  destruct (generateHealthMetrics_ok d) as [? ->]; [assumption|]. cbn [bind].
  destruct (generatePerformanceMetrics_ok d) as [? ->]; [assumption|]. cbn [bind].
  destruct (generateRepoStatus_ok d) as [? ->]; [assumption|]. cbn [bind].
  destruct (generateAlerts_ok d) as [? ->]; [assumption|]. cbn [bind].
  destruct (generateLabMetrics_ok d) as [? ->]; [assumption|]. cbn [bind].
  destruct (generateWorkflowStatus_ok d) as [? ->]; [assumption|]. cbn [bind].
  eexists; reflexivity.
Qed.

(** *** Loading *)

Lemma loadReports_data (w : world) (b : builder) :
  let d := dashboardData b in
  dashboardData (loadReports w b) =
  {| timestamp := timestamp d; title := title d; version := version d;
     sections := sections d; metrics := metrics d; alerts := alerts d;
     health := loaded (read_json w (health_report_path w)) (health d);
     repositories := loaded (read_json w (repo_analysis_path w)) (repositories d);
     performance := loaded (read_json w (performance_analysis_path w)) (performance d) |}.
Proof.
  destruct b as [[ts ti ve se me al he re pe] c wr].
  unfold loadReports, load_report, health_report_path, repo_analysis_path,
    performance_analysis_path.
  destruct (read_json w (path_join (reportsDir w) "health_report.json"));
    destruct (read_json w (path_join (reportsDir w) "repo_analysis.json"));
    destruct (read_json w (path_join (reportsDir w) "performance_analysis.json"));
    reflexivity.
Qed.

Lemma loadReports_console (w : world) (b : builder) :
  console (loadReports w b) =
  (console b ++
   [ "📊 Loading analysis reports...";
     load_line (read_json w (health_report_path w))
       "✓ Health report loaded" "⚠️  Health report not found";
     load_line (read_json w (repo_analysis_path w))
       "✓ Repository analysis loaded" "⚠️  Repository analysis not found";
     load_line (read_json w (performance_analysis_path w))
       "✓ Performance analysis loaded" "⚠️  Performance analysis not found" ])%list.
Proof.
  unfold loadReports, load_report, health_report_path, repo_analysis_path,
    performance_analysis_path.
  destruct (read_json w (path_join (reportsDir w) "health_report.json"));
    destruct (read_json w (path_join (reportsDir w) "repo_analysis.json"));
    destruct (read_json w (path_join (reportsDir w) "performance_analysis.json"));
    cbn [log console with_data load_line]; rewrite <- !app_assoc; reflexivity.
Qed.

Lemma loadReports_written (w : world) (b : builder) :
  written (loadReports w b) = written b.
Proof.
  unfold loadReports, load_report.
  destruct (read_json w (path_join (reportsDir w) "health_report.json"));
    destruct (read_json w (path_join (reportsDir w) "repo_analysis.json"));
    destruct (read_json w (path_join (reportsDir w) "performance_analysis.json"));
    reflexivity.
Qed.

(** *** Sections and alerts *)

Lemma derive_alerts_set_sections (l : list section) (d : dashboard_data) :
  derive_alerts (set_sections l d) =
  match derive_alerts d with
  | Ok d' => Ok (set_sections l d')
  | Throw e => Throw e
  end.
Proof.
  unfold derive_alerts. cbn [performance set_sections].
  destruct (gt_zero _) as [[|]|e]; cbn [bind]; try reflexivity.
  destruct (member (performance d) "bottlenecks") as [bs|e]; cbn [bind];
    try reflexivity.
  destruct (array_map alert_of_bottleneck bs); reflexivity.
Qed.

Lemma push_sections_set (w : world) (d : dashboard_data) :
  push_sections w d =
  set_sections (sections d ++ [health_section w d; performance_section d;
                               repository_section d])%list d.
Proof.
  destruct d. unfold push_sections, push_section, set_sections. cbn.
  rewrite <- !app_assoc. reflexivity.
Qed.

Lemma same_view_set_sections (l : list section) (d : dashboard_data) :
  same_view (set_sections l d) d.
Proof. repeat split. Qed.

Lemma same_view_sym (d1 d2 : dashboard_data) : same_view d1 d2 -> same_view d2 d1.
Proof. unfold same_view. intuition congruence. Qed.

Lemma render_same_view (now : string) (d1 d2 : dashboard_data) :
  same_view d1 d2 -> render now d1 = render now d2.
Proof.
  destruct d1, d2. unfold same_view. cbn.
  intros (-> & -> & -> & -> & ->). reflexivity.
Qed.

Lemma derive_alerts_same_view (d1 d2 : dashboard_data) :
  same_view d1 d2 ->
  match derive_alerts d1, derive_alerts d2 with
  | Ok d1', Ok d2' => same_view d1' d2'
  | Throw e1, Throw e2 => e1 = e2
  | _, _ => False
  end.
Proof.
  intros (Ht & Hh & Hr & Hp & Ha). unfold derive_alerts. rewrite Hp.
  destruct (gt_zero _) as [[|]|e]; cbn [bind]; try reflexivity.
  - destruct (member (performance d2) "bottlenecks") as [bs|e]; cbn [bind];
      try reflexivity.
    destruct (array_map alert_of_bottleneck bs); cbn [bind]; try reflexivity.
    repeat split; assumption.
  - repeat split; assumption.
Qed.

(** *** The page *)

Lemma split_after_chunk (a : string) (X : string -> string) :
  (exists A B, forall now, X now = A ++ now ++ B) ->
  exists A B, forall now, a ++ X now = A ++ now ++ B.
Proof.
  intros (A & B & H). exists (a ++ A), B. intros now.
  rewrite H. now rewrite append_assoc.
Qed.

Lemma html_page_split
    (title status_class status_text healthMetrics performanceMetrics repoStatus
     alertsHtml labMetrics workflowStatus : string) :
  exists A B, forall now,
    html_page title status_class status_text healthMetrics performanceMetrics
      repoStatus alertsHtml labMetrics workflowStatus now = A ++ now ++ B.
Proof.
  unfold html_page.
  repeat apply split_after_chunk.
  eexists "", _. intros now. reflexivity.
Qed.

Lemma render_split (d : dashboard_data) :
  (exists e, forall now, render now d = Throw e) \/
  (exists A B, forall now, render now d = Ok (A ++ now ++ B)).
Proof.
  unfold render.
  destruct (status_badge_class d) as [sc|]; cbn [bind]; [|left; eexists; reflexivity].
  destruct (status_badge_text d) as [st|]; cbn [bind]; [|left; eexists; reflexivity].
  destruct (generateHealthMetrics d) as [hm|]; cbn [bind]; [|left; eexists; reflexivity].
  destruct (generatePerformanceMetrics d) as [pm|]; cbn [bind];
    [|left; eexists; reflexivity].
  destruct (generateRepoStatus d) as [rs|]; cbn [bind]; [|left; eexists; reflexivity].
  destruct (generateAlerts d) as [al|]; cbn [bind]; [|left; eexists; reflexivity].
  destruct (generateLabMetrics d) as [lm|]; cbn [bind]; [|left; eexists; reflexivity].
  destruct (generateWorkflowStatus d) as [ws|]; cbn [bind];
    [|left; eexists; reflexivity].
  right.
  destruct (html_page_split (title d) sc st hm pm rs al lm ws) as (A & B & H).
  exists A, B. intros now. now rewrite H.
Qed.

(** *** Whole runs *)

Lemma buildSections_view (w : world) (b : builder) :
  match buildSections w b, derive_alerts (dashboardData b) with
  | Ok b', Ok d => same_view (dashboardData b') d /\ written b' = written b
  | Throw e1, Throw e2 => e1 = e2
  | _, _ => False
  end.
Proof.
  unfold buildSections. cbn [dashboardData log].
  rewrite push_sections_set, derive_alerts_set_sections.
  destruct (derive_alerts (dashboardData b)) as [d|e]; cbn [bind].
  - split; [apply same_view_set_sections | reflexivity].
  - reflexivity.
Qed.

Lemma buildSections_without_push_view (w : world) (b : builder) :
  match buildSections_without_push w b, derive_alerts (dashboardData b) with
  | Ok b', Ok d => same_view (dashboardData b') d /\ written b' = written b
  | Throw e1, Throw e2 => e1 = e2
  | _, _ => False
  end.
Proof.
  unfold buildSections_without_push. cbn [dashboardData log].
  destruct (derive_alerts (dashboardData b)) as [d|e]; cbn [bind].
  - split; [repeat split | reflexivity].
  - reflexivity.
Qed.

Lemma main_with_view (step : world -> builder -> result builder) (w : world) :
  (forall b,
      match step w b, derive_alerts (dashboardData b) with
      | Ok b', Ok d => same_view (dashboardData b') d /\ written b' = written b
      | Throw e1, Throw e2 => e1 = e2
      | _, _ => False
      end) ->
  main_with step w = run_on_loaded w.
Proof.
  intros Hstep. unfold main_with, build_with, run_on_loaded.
  set (b0 := log _ (new_DashboardBuilder w)).
  specialize (Hstep (loadReports w b0)).
  assert (Hd : dashboardData (loadReports w b0) = loaded_data w)
    by (rewrite loadReports_data; reflexivity).
  assert (Hw : written (loadReports w b0) = []) by (now rewrite loadReports_written).
  rewrite Hd in Hstep.
  destruct (step w (loadReports w b0)) as [b'|e1];
    destruct (derive_alerts (loaded_data w)) as [d|e2]; try contradiction;
    cbn [bind]; [|reflexivity].
  destruct Hstep as [Hv Hwr].
  unfold generateHTML. cbn [dashboardData log].
  rewrite (render_same_view _ _ _ Hv).
  destruct (render (locale_time w) d) as [html|e]; cbn [bind]; [|reflexivity].
  unfold dashboard_path.
  destruct (writable w (path_join (cwd w) "dashboard.html")); [|reflexivity].
  unfold page_written, dashboard_path. cbn. now rewrite Hwr, Hw.
Qed.

Lemma main_run_on_loaded (w : world) : main w = run_on_loaded w.
Proof. apply main_with_view. intros b. apply buildSections_view. Qed.

(** *** Alerts from bottlenecks *)

Lemma member_not_nullish (v : value) (k : string) :
  nullish v = false -> member v k = Ok (prop v k).
Proof. intros H. unfold member. now rewrite H. Qed.

Lemma opt_member_not_undef (v : value) (k : string) :
  opt_member v k <> VUndef -> nullish v = false /\ opt_member v k = prop v k.
Proof.
  unfold opt_member. destruct (nullish v); [congruence | auto].
Qed.

Lemma alert_of_bottleneck_ok (b : value) :
  bottleneck_entry b = true ->
  exists a, alert_of_bottleneck b = Ok a /\ alert_for b a.
Proof.
  unfold bottleneck_entry. intros H.
  repeat (apply andb_true_iff in H; destruct H as [H ?]).
  apply negb_true_iff in H.
  destruct (plain_to_string (prop b "area")) as [sa Hsa]; [assumption|].
  destruct (plain_to_string (prop b "current_value")) as [sc Hsc]; [assumption|].
  destruct (plain_to_string (prop b "target_value")) as [st Hst]; [assumption|].
  unfold alert_of_bottleneck. rewrite !(member_not_nullish b _ H). cbn [bind].
  rewrite Hsa, Hsc, Hst. cbn [bind].
  eexists. split; [reflexivity|].
  unfold alert_for. cbn [severity area impact message].
  repeat split. exists sa, sc, st. repeat split; assumption.
Qed.

Lemma derive_alerts_array (d : dashboard_data) (bs : list value) :
  opt_member (performance d) "bottlenecks" = VArr bs ->
  derive_alerts d =
  match bs with
  | [] => Ok d
  | _ :: _ => al <- mapM alert_of_bottleneck bs ;; Ok (set_alerts al d)
  end.
Proof.
  intros Hb. unfold derive_alerts, opt_path. cbn [fold_left]. rewrite Hb.
  unfold gt_zero. cbn [opt_member nullish prop to_number bind String.eqb Ascii.eqb
                       Bool.eqb].
  rewrite num_of_nat_gt_zero.
  destruct (opt_member_not_undef (performance d) "bottlenecks") as [Hn Hp];
    [rewrite Hb; discriminate|].
  destruct bs as [|x bs]; cbn [List.length Nat.ltb Nat.leb]; [reflexivity|].
  rewrite (member_not_nullish _ _ Hn), <- Hp, Hb. reflexivity.
Qed.

Lemma derive_alerts_missing (d : dashboard_data) :
  nullish (opt_member (performance d) "bottlenecks") = true ->
  derive_alerts d = Ok d.
Proof.
  intros Hb. unfold derive_alerts, opt_path. cbn [fold_left].
  assert (H : opt_member (opt_member (performance d) "bottlenecks") "length" = VUndef).
  { unfold opt_member at 1. now rewrite Hb. }
  rewrite H. unfold gt_zero. cbn [to_number bind]. rewrite num_nan_gt_zero.
  reflexivity.
Qed.

Lemma plain_alert_of_bottleneck (b : value) (a : alert) :
  plain b = true -> alert_of_bottleneck b = Ok a -> plain_alert a = true.
Proof.
  intros Hp. unfold alert_of_bottleneck, member.
  destruct (nullish b); cbn [bind]; [discriminate|].
  destruct (to_string (prop b "area")); cbn [bind]; [|discriminate].
  destruct (to_string (prop b "current_value")); cbn [bind]; [|discriminate].
  destruct (to_string (prop b "target_value")); cbn [bind]; [|discriminate].
  intros H. injection H as <-. unfold plain_alert. cbn [severity area].
  now rewrite !plain_prop.
Qed.

Lemma derive_alerts_plain (d : dashboard_data) :
  plain_data d = true -> bottlenecks_listed (performance d) = true ->
  exists d', derive_alerts d = Ok d' /\ plain_data d' = true.
Proof.
  unfold plain_data, bottlenecks_listed. intros Hp Hb.
  repeat (apply andb_true_iff in Hp; destruct Hp as [Hp ?]).
  assert (Hpb : plain (opt_member (performance d) "bottlenecks") = true)
    by now apply plain_opt_member.
  destruct (opt_member (performance d) "bottlenecks") as [| | | | |bs|] eqn:Hop;
    try discriminate.
  - exists d. rewrite derive_alerts_missing by now rewrite Hop.
    split; [reflexivity|]. now rewrite Hp, H, H0, H1.
  - exists d. rewrite derive_alerts_missing by now rewrite Hop.
    split; [reflexivity|]. now rewrite Hp, H, H0, H1.
  - rewrite (derive_alerts_array d bs Hop).
    destruct bs as [|x bs].
    { exists d. split; [reflexivity|]. now rewrite Hp, H, H0, H1. }
    cbn [plain] in Hpb.
    destruct (mapM_ok alert_of_bottleneck (x :: bs)) as [al [Hal HF]].
    { rewrite forallb_forall in Hb, Hpb. apply Forall_forall. intros b Hin.
      destruct (alert_of_bottleneck_ok b) as [a [Ha _]]; [|now exists a].
      unfold bottleneck_entry. rewrite (Hb b Hin).
      now rewrite !plain_prop by (now apply Hpb). }
    rewrite Hal. cbn [bind]. eexists. split; [reflexivity|].
    cbn [health repositories performance alerts set_alerts].
    rewrite Hp, H1, H0. cbn [andb].
    apply forallb_forall. intros a Hin.
    destruct (Forall2_in_right _ _ _ a HF Hin) as [b [Hinb Hb']].
    rewrite forallb_forall in Hpb.
    exact (plain_alert_of_bottleneck b a (Hpb b Hinb) Hb').
Qed.

Lemma loaded_data_plain (w : world) :
  well_shaped w = true ->
  plain_data (loaded_data w) = true /\
  bottlenecks_listed (performance (loaded_data w)) = true.
Proof.
  unfold well_shaped. intros H.
  repeat (apply andb_true_iff in H; destruct H as [H ?]).
  split; [|assumption].
  unfold plain_data, loaded_data. cbn [health repositories performance alerts forallb].
  destruct (read_json w (health_report_path w));
    destruct (read_json w (repo_analysis_path w));
    destruct (read_json w (performance_analysis_path w));
    cbn [plain_outcome loaded plain] in *;
    repeat (apply andb_true_iff; split); solve [reflexivity | assumption].
Qed.

(** *** Defaults *)



End DashboardFacts.

(** ** Further facts about the builder *)

Lemma mapM_throw_inv {A B : Type} (f : A -> result B) (l : list A) (e : exn) :
  mapM f l = Throw e -> exists x, In x l /\ f x = Throw e.
Proof.
  induction l as [|x l IH]; simpl; intros H.
  - discriminate.
  - destruct (f x) as [y|e'] eqn:Hx; cbn [bind] in H.
    + destruct (mapM f l) as [ys|e'] eqn:Hl; cbn [bind] in H; [discriminate|].
      destruct (IH H) as [z [Hz Hfz]]. exists z. auto.
    + injection H as <-. exists x. auto.
Qed.

Lemma mapM_throws {A B : Type} (f : A -> result B) (l : list A) (x : A) (e : exn) :
  In x l -> f x = Throw e -> exists e', mapM f l = Throw e'.
Proof.
  induction l as [|y l IH]; simpl; intros Hin Hx.
  - contradiction.
  - destruct (f y) as [z|e'] eqn:Hy; cbn [bind]; [|eexists; reflexivity].
    destruct Hin as [->|Hin]; [congruence|].
    destruct (IH Hin Hx) as [e' ->]. cbn [bind]. eexists; reflexivity.
Qed.

Lemma mapM_length {A B : Type} (f : A -> result B) (l : list A) (ys : list B) :
  mapM f l = Ok ys -> List.length ys = List.length l.
Proof.
  intros H. apply mapM_Forall2 in H. symmetry. exact (Forall2_length H).
Qed.

Section BuilderFacts.
Context {N : JsNumber}.

(** *** Exceptions are type errors *)

Lemma only_type_errors_Ok {A : Type} (a : A) : only_type_errors (Ok a).
Proof. intros e H. discriminate. Qed.

Lemma only_type_errors_Throw {A : Type} : only_type_errors (@Throw A TypeError).
Proof. intros e H. now injection H as <-. Qed.

Lemma only_type_errors_bind {A B : Type} (r : result A) (k : A -> result B) :
  only_type_errors r -> (forall a, only_type_errors (k a)) ->
  only_type_errors (bind r k).
Proof.
  intros Hr Hk e. destruct r as [a|e']; cbn [bind]; intros H.
  - exact (Hk a e H).
  - apply Hr. now injection H as ->.
Qed.

Lemma only_type_errors_mapM {A B : Type} (f : A -> result B) (l : list A) :
  (forall x, In x l -> only_type_errors (f x)) -> only_type_errors (mapM f l).
Proof.
  intros Hf e H. destruct (mapM_throw_inv f l e H) as [x [Hin Hx]].
  exact (Hf x Hin e Hx).
Qed.

Lemma only_type_errors_member (v : value) (k : string) :
  only_type_errors (member v k).
Proof.
  unfold member. destruct (nullish v);
    [apply only_type_errors_Throw | apply only_type_errors_Ok].
Qed.

Lemma only_type_errors_to_string (v : value) : only_type_errors (to_string v).
Proof.
  induction v as [| | b | n | s | l IH | l IH] using value_nested_ind;
    cbn [to_string]; try apply only_type_errors_Ok.
  - apply only_type_errors_bind; [|intros; apply only_type_errors_Ok].
    apply only_type_errors_mapM. intros x Hx.
    destruct (nullish x); [apply only_type_errors_Ok|].
    rewrite Forall_forall in IH. now apply IH.
  - destruct (has_key "toString" l);
      [apply only_type_errors_Throw | apply only_type_errors_Ok].
Qed.

Ltac type_errors :=
  repeat first
    [ apply only_type_errors_Ok
    | apply only_type_errors_Throw
    | apply only_type_errors_to_string
    | apply only_type_errors_member
    | apply only_type_errors_bind; [|intros ?] ].

Lemma only_type_errors_gt_zero (v : value) : only_type_errors (gt_zero v).
Proof.
  unfold gt_zero, to_number. destruct v; type_errors.
Qed.

Lemma only_type_errors_alert_of_bottleneck (b : value) :
  only_type_errors (alert_of_bottleneck b).
Proof. unfold alert_of_bottleneck. type_errors. Qed.

Lemma only_type_errors_derived_alerts (p : value) :
  only_type_errors (derived_alerts p).
Proof.
  unfold derived_alerts.
  apply only_type_errors_bind; [apply only_type_errors_gt_zero|].
  intros [|]; [|apply only_type_errors_Ok].
  apply only_type_errors_bind; [apply only_type_errors_member|]. intros bs.
  apply only_type_errors_bind; [|intros; apply only_type_errors_Ok].
  unfold array_map. destruct bs; try apply only_type_errors_Throw.
  apply only_type_errors_mapM. intros x _.
  apply only_type_errors_alert_of_bottleneck.
Qed.

Lemma only_type_errors_render_metric (kv : string * value) :
  only_type_errors (render_metric kv).
Proof.
  destruct kv as [key v]. unfold render_metric.
  apply only_type_errors_bind; [|intros; apply only_type_errors_Ok].
  destruct v; type_errors.
Qed.

Lemma only_type_errors_render (now : string) (d : dashboard_data) :
  only_type_errors (render now d).
Proof.
  unfold render, status_badge_class, status_badge_text.
  apply only_type_errors_bind; [type_errors | intros sc].
  apply only_type_errors_bind; [type_errors | intros st].
  apply only_type_errors_bind; [|intros hm].
  { unfold generateHealthMetrics. destruct (negb _); [type_errors|].
    apply only_type_errors_bind; [type_errors | intros m].
    apply only_type_errors_bind; [|intros; type_errors].
    apply only_type_errors_mapM. intros x _. apply only_type_errors_render_metric. }
  apply only_type_errors_bind; [|intros pm].
  { unfold generatePerformanceMetrics. destruct (negb _); type_errors. }
  apply only_type_errors_bind; [|intros rs].
  { unfold generateRepoStatus. destruct (negb _); type_errors. }
  apply only_type_errors_bind; [|intros al].
  { unfold generateAlerts. destruct (alerts d); [type_errors|].
    apply only_type_errors_bind; [|intros; type_errors].
    apply only_type_errors_mapM. intros x _. unfold render_alert. type_errors. }
  apply only_type_errors_bind; [|intros lm].
  { unfold generateLabMetrics. destruct (negb _); type_errors. }
  apply only_type_errors_bind; [|intros ws].
  { unfold generateWorkflowStatus. destruct (negb _); type_errors. }
  apply only_type_errors_Ok.
Qed.

(** *** The alerts as a function of the performance report *)

Lemma derive_alerts_derived (d : dashboard_data) :
  derive_alerts d =
  match derived_alerts (performance d) with
  | Ok (Some al) => Ok (set_alerts al d)
  | Ok None => Ok d
  | Throw e => Throw e
  end.
Proof.
  unfold derive_alerts, derived_alerts.
  destruct (gt_zero _) as [[|]|e]; cbn [bind]; try reflexivity.
  destruct (member (performance d) "bottlenecks") as [bs|e]; cbn [bind];
    try reflexivity.
  destruct (array_map alert_of_bottleneck bs); reflexivity.
Qed.

Lemma derive_alerts_keeps (d d' : dashboard_data) :
  derive_alerts d = Ok d' ->
  sections d' = sections d /\ title d' = title d /\ health d' = health d /\
  repositories d' = repositories d /\ performance d' = performance d /\
  timestamp d' = timestamp d /\ version d' = version d /\ metrics d' = metrics d.
Proof.
  rewrite derive_alerts_derived.
  destruct (derived_alerts (performance d)) as [[al|]|e]; intros H;
    try discriminate; injection H as <-; repeat split.
Qed.

Lemma derive_alerts_idempotent (d d' : dashboard_data) :
  derive_alerts d = Ok d' -> derive_alerts d' = Ok d'.
Proof.
  intros H. pose proof (derive_alerts_keeps d d' H) as (_ & _ & _ & _ & Hp & _).
  rewrite derive_alerts_derived in H. rewrite derive_alerts_derived, Hp.
  destruct (derived_alerts (performance d)) as [[al|]|e]; try discriminate;
    injection H as <-; reflexivity.
Qed.

Lemma derived_alerts_none (p : value) :
  no_bottlenecks p = true -> derived_alerts p = Ok None.
Proof.
  unfold no_bottlenecks, derived_alerts, opt_path. cbn [fold_left]. intros H.
  assert (Hlen : gt_zero (opt_member (opt_member p "bottlenecks") "length") = Ok false).
  { destruct (opt_member p "bottlenecks") as [| |b|n|s|l|l]; unfold gt_zero;
      cbn [opt_member nullish prop to_number bind String.eqb Ascii.eqb Bool.eqb];
      rewrite ?num_nan_gt_zero; try reflexivity.
    - apply String.eqb_eq in H. subst s. cbn [String.length].
      now rewrite num_of_nat_gt_zero.
    - destruct l; [|discriminate]. cbn [List.length].
      now rewrite num_of_nat_gt_zero.
    - apply negb_true_iff in H. unfold has_key in H.
      destruct (lookup "length" l); [discriminate|].
      cbn [to_number bind]. now rewrite num_nan_gt_zero. }
  now rewrite Hlen.
Qed.

Lemma derived_alerts_string (p : value) (s : string) :
  opt_member p "bottlenecks" = VStr s -> s <> "" ->
  derived_alerts p = Throw TypeError.
Proof.
  intros Hb Hs. unfold derived_alerts, opt_path. cbn [fold_left]. rewrite Hb.
  unfold gt_zero.
  cbn [opt_member nullish prop to_number bind String.eqb Ascii.eqb Bool.eqb].
  rewrite num_of_nat_gt_zero.
  destruct s as [|c s]; [congruence|]. cbn [String.length Nat.ltb Nat.leb].
  destruct (opt_member_not_undef p "bottlenecks") as [Hn Hp];
    [rewrite Hb; discriminate|].
  rewrite (member_not_nullish _ _ Hn), <- Hp, Hb. reflexivity.
Qed.

Lemma derived_alerts_array (p : value) (bs : list value) :
  opt_member p "bottlenecks" = VArr bs -> bs <> [] ->
  derived_alerts p = (al <- mapM alert_of_bottleneck bs ;; Ok (Some al)).
Proof.
  intros Hb Hne. unfold derived_alerts, opt_path. cbn [fold_left]. rewrite Hb.
  unfold gt_zero.
  cbn [opt_member nullish prop to_number bind String.eqb Ascii.eqb Bool.eqb].
  rewrite num_of_nat_gt_zero.
  destruct bs as [|x bs]; [congruence|]. cbn [List.length Nat.ltb Nat.leb].
  destruct (opt_member_not_undef p "bottlenecks") as [Hn Hp];
    [rewrite Hb; discriminate|].
  rewrite (member_not_nullish _ _ Hn), <- Hp, Hb. reflexivity.
Qed.

(** *** The steps of a run, spelled out *)

Lemma buildSections_unfold (w : world) (b : builder) :
  buildSections w b =
  match derive_alerts (dashboardData b) with
  | Ok d' =>
      Ok {| dashboardData :=
              set_sections (sections (dashboardData b)
                            ++ [health_section w (dashboardData b);
                                performance_section (dashboardData b);
                                repository_section (dashboardData b)])%list d';
            console :=
              (console b
               ++ ["🔨 Building dashboard sections...";
                   built_sections_line
                     (nat_to_string (List.length (sections (dashboardData b)) + 3))])%list;
            written := written b |}
  | Throw e => Throw e
  end.
Proof.
  unfold buildSections. cbn [dashboardData log].
  rewrite push_sections_set, derive_alerts_set_sections.
  destruct (derive_alerts (dashboardData b)) as [d'|e]; cbn [bind]; [|reflexivity].
  unfold log, with_data. cbn [dashboardData console written sections set_sections].
  rewrite length_app, <- app_assoc. reflexivity.
Qed.

Lemma generateHTML_unfold (w : world) (b : builder) :
  generateHTML w b =
  match render (locale_time w) (dashboardData b) with
  | Ok html =>
      if writable w (dashboard_path w) then
        Ok (dashboard_path w,
            {| dashboardData := dashboardData b;
               console :=
                 (console b
                  ++ ["📝 Generating HTML dashboard...";
                      dashboard_saved_line (dashboard_path w)])%list;
               written := (dashboard_path w, html) :: written b |})
      else Throw WriteError
  | Throw e => Throw e
  end.
Proof.
  unfold generateHTML, dashboard_path. cbn [dashboardData log].
  destruct (render (locale_time w) (dashboardData b)) as [html|e]; cbn [bind];
    [|reflexivity].
  destruct (writable w (path_join (cwd w) "dashboard.html")); [|reflexivity].
  unfold log, writeFileSync. cbn [dashboardData console written].
  rewrite <- app_assoc. reflexivity.
Qed.

(** *** Rows and placeholders *)

Lemma alert_row_starts (sev ar msg : string) :
  exists t, alert_row sev ar msg = String newline t.
Proof. eexists. reflexivity. Qed.

Lemma health_metric_row_starts (key shown : string) :
  exists t, health_metric_row key shown = String newline t.
Proof. eexists. reflexivity. Qed.

Lemma join_starts (x : string) (r : list string) (t : string) :
  x = String newline t -> exists t', join "" (x :: r) = String newline t'.
Proof.
  intros ->. destruct r as [|y r]; cbn [join]; eexists; reflexivity.
Qed.

Lemma rows_not_text (rows : list string) (c : ascii) (t : string) :
  c <> newline ->
  Forall (fun row => exists t', row = String newline t') rows ->
  join "" rows <> String c t.
Proof.
  intros Hc HF. destruct HF as [|x r [t' Hx] _].
  - discriminate.
  - destruct (join_starts x r t' Hx) as [t'' ->]. congruence.
Qed.

Lemma render_alert_starts (a : alert) (row : string) :
  render_alert a = Ok row -> exists t, row = String newline t.
Proof.
  unfold render_alert.
  destruct (to_string (severity a)) as [sev|]; cbn [bind]; [|discriminate].
  destruct (to_string (area a)) as [ar|]; cbn [bind]; [|discriminate].
  intros H. injection H as <-. apply alert_row_starts.
Qed.

Lemma render_metric_starts (kv : string * value) (row : string) :
  render_metric kv = Ok row -> exists t, row = String newline t.
Proof.
  destruct kv as [key v]. unfold render_metric.
  destruct (match v with VNum n => Ok (num_to_fixed1 n) | _ => to_string v end)
    as [shown|]; cbn [bind]; [|discriminate].
  intros H. injection H as <-. apply health_metric_row_starts.
Qed.

Lemma mapM_rows_start {A : Type} (f : A -> result string) (l : list A)
    (rows : list string) :
  (forall x row, f x = Ok row -> exists t, row = String newline t) ->
  mapM f l = Ok rows ->
  Forall (fun row => exists t', row = String newline t') rows.
Proof.
  intros Hf H. apply mapM_Forall2 in H.
  induction H as [|x row l rows Hx _ IH]; constructor; eauto.
Qed.

(** *** Labels *)

Lemma chars_underscores_to_spaces (s : string) :
  chars (underscores_to_spaces s)
  = map (fun c => if Ascii.eqb c underscore then " "%char else c) (chars s).
Proof.
  induction s as [|c s IH]; cbn [underscores_to_spaces chars map].
  - reflexivity.
  - now rewrite IH.
Qed.

(** *** The page *)

Lemma split_before_tail (a : string) (X : string -> string) (B : string) :
  (exists A, forall now, X now = A ++ now ++ B) ->
  exists A, forall now, a ++ X now = A ++ now ++ B.
Proof.
  intros (A & H). exists (a ++ A). intros now.
  rewrite H. now rewrite append_assoc.
Qed.

Lemma split_with_prefix (pre a : string) (X : string -> string) (B : string) :
  (exists A, forall now, X now = A ++ now ++ B) ->
  exists A, forall now, (pre ++ a) ++ X now = pre ++ A ++ now ++ B.
Proof.
  intros (A & H). exists (a ++ A). intros now.
  rewrite H. now rewrite !append_assoc.
Qed.

Lemma html_page_envelope
    (title status_class status_text healthMetrics performanceMetrics repoStatus
     alertsHtml labMetrics workflowStatus : string) :
  exists A, forall now,
    html_page title status_class status_text healthMetrics performanceMetrics
      repoStatus alertsHtml labMetrics workflowStatus now
    = "<!DOCTYPE html>" ++ A ++ now ++ page_tail.
Proof.
  unfold html_page.
  apply (split_with_prefix "<!DOCTYPE html>" "
<html lang=").
  repeat apply split_before_tail.
  exists "". intros now. reflexivity.
Qed.

Lemma render_envelope (now : string) (d : dashboard_data) (html : string) :
  render now d = Ok html ->
  exists A, html = "<!DOCTYPE html>" ++ A ++ now ++ page_tail.
Proof.
  unfold render.
  destruct (status_badge_class d) as [sc|]; cbn [bind]; [|discriminate].
  destruct (status_badge_text d) as [st|]; cbn [bind]; [|discriminate].
  destruct (generateHealthMetrics d) as [hm|]; cbn [bind]; [|discriminate].
  destruct (generatePerformanceMetrics d) as [pm|]; cbn [bind]; [|discriminate].
  destruct (generateRepoStatus d) as [rs|]; cbn [bind]; [|discriminate].
  destruct (generateAlerts d) as [al|]; cbn [bind]; [|discriminate].
  destruct (generateLabMetrics d) as [lm|]; cbn [bind]; [|discriminate].
  destruct (generateWorkflowStatus d) as [ws|]; cbn [bind]; [|discriminate].
  intros H. injection H as <-.
  destruct (html_page_envelope (title d) sc st hm pm rs al lm ws) as [A HA].
  exists A. apply HA.
Qed.

(** *** Exceptions of the steps *)

Lemma only_type_errors_derive_alerts (d : dashboard_data) :
  only_type_errors (derive_alerts d).
Proof.
  intros e. rewrite derive_alerts_derived.
  destruct (derived_alerts (performance d)) as [[al|]|e'] eqn:H; try discriminate.
  intros He. injection He as <-.
  exact (only_type_errors_derived_alerts _ _ H).
Qed.

Lemma only_type_errors_buildSections (w : world) (b : builder) :
  only_type_errors (buildSections w b).
Proof.
  intros e. rewrite buildSections_unfold.
  destruct (derive_alerts (dashboardData b)) as [d'|e'] eqn:H; [discriminate|].
  intros He. injection He as <-.
  exact (only_type_errors_derive_alerts _ _ H).
Qed.

Lemma generateHTML_throws (w : world) (b : builder) (e : exn) :
  generateHTML w b = Throw e ->
  e = TypeError \/ (e = WriteError /\ writable w (dashboard_path w) = false).
Proof.
  rewrite generateHTML_unfold.
  destruct (render (locale_time w) (dashboardData b)) as [html|e'] eqn:H.
  - destruct (writable w (dashboard_path w)); [discriminate|].
    intros He. injection He as <-. right. auto.
  - intros He. injection He as <-. left.
    exact (only_type_errors_render _ _ _ H).
Qed.

End BuilderFacts.

(** The alerts of the two bottlenecks, computed. *)
Example two_bottlenecks_alerts :
  match buildSections absent_world two_bottlenecks_builder with
  | Ok b' => alerts (dashboardData b')
  | Throw _ => []
  end =
  [ {| severity := VStr "high"; area := VStr "TAT";
       message := "TAT: 72 (target: 90)"; impact := VStr "Delayed results" |};
    {| severity := VStr "low"; area := VStr "QC";
       message := "QC: 97 (target: undefined)"; impact := VUndef |} ].
Proof. vm_compute. reflexivity. Qed.

(** The builder with two bottlenecks can be built, with the alerts computed
    above. *)
Lemma two_bottlenecks_built :
  exists b1,
    buildSections absent_world two_bottlenecks_builder = Ok b1 /\
    List.length (alerts (dashboardData b1)) = 2.
Proof.
  pose proof two_bottlenecks_alerts as H.
  destruct (buildSections absent_world two_bottlenecks_builder) as [b1|e].
  - exists b1. split; [reflexivity|]. now rewrite H.
  - discriminate.
Qed.

(** The builder with five bottlenecks can be built. *)
Lemma five_bottlenecks_built :
  exists b', buildSections absent_world five_bottlenecks_builder = Ok b'.
Proof. eexists. reflexivity. Qed.

(** ** Fields, entries and runs *)

Lemma forallb_false_In {A : Type} (f : A -> bool) (l : list A) :
  forallb f l = false -> exists x, In x l /\ f x = false.
Proof.
  induction l as [|x l IH]; cbn [forallb]; intros H.
  - discriminate.
  - destruct (f x) eqn:Hx.
    + destruct (IH H) as [y [Hy Hfy]]. exists y. split; [now right | exact Hfy].
    + exists x. split; [now left | exact Hx].
Qed.

Section FieldFacts.
Context {N : JsNumber}.

(** *** Fields and their defaults *)




(** *** Entries that convert *)

Lemma converts_true (v : value) : converts v = true -> exists s, to_string v = Ok s.
Proof.
  unfold converts. destruct (to_string v) as [s|e]; [|discriminate].
  intros _. now exists s.
Qed.

Lemma converts_false (v : value) : converts v = false -> to_string v = Throw TypeError.
Proof.
  unfold converts. destruct (to_string v) as [s|e] eqn:H; [discriminate|].
  intros _. now rewrite (only_type_errors_to_string v e H).
Qed.

Lemma alert_of_bottleneck_convertible (b : value) :
  convertible_entry b = true ->
  exists a, alert_of_bottleneck b = Ok a /\ alert_for b a.
Proof.
  unfold convertible_entry. intros H.
  repeat (apply andb_true_iff in H; destruct H as [H ?]).
  apply negb_true_iff in H.
  destruct (converts_true (prop b "area")) as [sa Hsa]; [assumption|].
  destruct (converts_true (prop b "current_value")) as [sc Hsc]; [assumption|].
  destruct (converts_true (prop b "target_value")) as [st Hst]; [assumption|].
  unfold alert_of_bottleneck. rewrite !(member_not_nullish b _ H). cbn [bind].
  rewrite Hsa, Hsc, Hst. cbn [bind].
  eexists. split; [reflexivity|].
  unfold alert_for. cbn [severity area impact message].
  repeat split. exists sa, sc, st. repeat split; assumption.
Qed.

Lemma alert_of_bottleneck_throws (b : value) :
  convertible_entry b = false -> alert_of_bottleneck b = Throw TypeError.
Proof.
  unfold convertible_entry, alert_of_bottleneck, member. intros H.
  destruct (nullish b); cbn [bind]; [reflexivity|]. cbn [negb andb] in H.
  destruct (converts (prop b "area")) eqn:Ha.
  2:{ now rewrite (converts_false _ Ha). }
  destruct (converts_true _ Ha) as [sa ->]. cbn [bind andb] in *.
  destruct (converts (prop b "current_value")) eqn:Hc.
  2:{ now rewrite (converts_false _ Hc). }
  destruct (converts_true _ Hc) as [sc ->]. cbn [bind andb] in *.
  now rewrite (converts_false _ H).
Qed.

Lemma mapM_alerts_convertible (bs : list value) :
  forallb convertible_entry bs = true ->
  exists al, mapM alert_of_bottleneck bs = Ok al /\ Forall2 alert_for bs al.
Proof.
  induction bs as [|x bs IH]; cbn [forallb mapM]; intros H.
  - exists []. split; [reflexivity | constructor].
  - apply andb_true_iff in H. destruct H as [Hx Hbs].
    destruct (alert_of_bottleneck_convertible x Hx) as [a [Ha Hfor]].
    destruct (IH Hbs) as [al [Hal HF]].
    exists (a :: al). rewrite Ha. cbn [bind]. rewrite Hal. cbn [bind].
    split; [reflexivity | now constructor].
Qed.

Lemma mapM_alerts_throw (bs : list value) :
  forallb convertible_entry bs = false ->
  mapM alert_of_bottleneck bs = Throw TypeError.
Proof.
  intros H. destruct (forallb_false_In _ _ H) as [x [Hin Hx]].
  destruct (mapM_throws alert_of_bottleneck bs x TypeError Hin
              (alert_of_bottleneck_throws x Hx)) as [e He].
  rewrite He. f_equal.
  apply (only_type_errors_mapM alert_of_bottleneck bs); [|exact He].
  intros y _. apply only_type_errors_alert_of_bottleneck.
Qed.

(** *** Exceptions of a build *)

Lemma build_throws (w : world) (b : builder) (e : exn) :
  build w b = Throw e ->
  e = TypeError \/
  (e = WriteError /\ writable w (dashboard_path w) = false /\
   exists b1 html,
     buildSections w (loadReports w (log "
🚀 Building Enhanced Dashboard...
" b)) = Ok b1 /\
     render (locale_time w) (dashboardData b1) = Ok html).
Proof.
  unfold build, build_with.
  destruct (buildSections w _) as [b1|e1] eqn:Hb; cbn [bind].
  - rewrite generateHTML_unfold.
    destruct (render (locale_time w) (dashboardData b1)) as [html|e2] eqn:Hr.
    + destruct (writable w (dashboard_path w)) eqn:Hw; cbn [bind]; [discriminate|].
      intros H. injection H as <-. right. split; [reflexivity|].
      split; [reflexivity|]. now exists b1, html.
    + cbn [bind]. intros H. injection H as <-. left.
      exact (only_type_errors_render _ _ _ Hr).
  - intros H. injection H as <-. left.
    exact (only_type_errors_buildSections _ _ _ Hb).
Qed.

(** *** What a card reads *)











(** Reports without an own [toString] anywhere, with bottlenecks that are
    missing or an array without [null], never make a run throw. *)
Lemma well_shaped_run (w : world) :
  well_shaped w = true ->
  exists html,
    main w = if writable w (dashboard_path w) then page_written w html else crashed.
Proof.
  intros Hw. rewrite main_run_on_loaded. unfold run_on_loaded.
  destruct (loaded_data_plain w Hw) as [Hp Hb].
  destruct (derive_alerts_plain _ Hp Hb) as [d [Hd Hpd]]. rewrite Hd.
  destruct (render_ok (locale_time w) d Hpd) as [html Hhtml]. rewrite Hhtml.
  now exists html.
Qed.



End FieldFacts.

(** ** The page, part by part *)

Lemma strip_prefix_sound (p s r : string) :
  strip_prefix p s = Some r -> s = p ++ r.
Proof.
  revert s. induction p as [|a p IH]; intros [|b s]; cbn [strip_prefix];
    intros H; try discriminate.
  - now injection H as <-.
  - now injection H as <-.
  - destruct (Ascii.eqb a b) eqn:E; [|discriminate].
    apply Ascii.eqb_eq in E. subst b. cbn. f_equal. now apply IH.
Qed.

Lemma split_at_sound (p s a b : string) :
  split_at p s = Some (a, b) -> s = a ++ p ++ b.
Proof.
  revert a. induction s as [|c s IH]; intros a; cbn [split_at].
  - destruct (strip_prefix p "") as [r|] eqn:E; [|discriminate].
    intros H. injection H as <- <-. cbn. now apply strip_prefix_sound.
  - destruct (strip_prefix p (String c s)) as [r|] eqn:E.
    + intros H. injection H as <- <-. cbn. now apply strip_prefix_sound.
    + destruct (split_at p s) as [[a' b']|]; [|discriminate].
      intros H. injection H as <- <-. cbn. f_equal. now apply IH.
Qed.

Lemma in_order_skip (a : string) (parts : list string) (X : string) :
  in_order parts X -> in_order parts (a ++ X).
Proof.
  destruct parts as [|s r]; cbn [in_order]; [auto|].
  intros (A & B & -> & H). exists (a ++ A), B. split; [|exact H].
  now rewrite append_assoc.
Qed.

Lemma in_order_here (s : string) (r : list string) (B : string) :
  in_order r B -> in_order (s :: r) (s ++ B).
Proof. intros H. exists "", B. split; [reflexivity | exact H]. Qed.

Lemma in_order_glued (s1 s2 : string) (r : list string) (B : string) :
  in_order r B -> in_order ((s1 ++ s2) :: r) (s1 ++ s2 ++ B).
Proof.
  intros H. exists "", B. split; [|exact H]. cbn. now rewrite append_assoc.
Qed.

Lemma in_order_inside (s : string) (r : list string) (c X a b : string) :
  split_at s c = Some (a, b) -> in_order r (b ++ X) -> in_order (s :: r) (c ++ X).
Proof.
  intros Hs H. apply split_at_sound in Hs. subst c.
  exists a, (b ++ X). split; [|exact H]. now rewrite !append_assoc.
Qed.

Lemma in_order_at_end (s c a b : string) :
  split_at s c = Some (a, b) -> in_order [s] c.
Proof.
  intros Hs. apply split_at_sound in Hs. subst c.
  exists a, b. split; [reflexivity | exact I].
Qed.

(** Walk through the chunks of a page looking for the parts in turn. *)
Ltac find_in_order :=
  repeat first
    [ exact I
    | apply in_order_here
    | apply in_order_glued
    | eapply in_order_inside; [lazy; reflexivity|]
    | eapply in_order_at_end; lazy; reflexivity
    | apply in_order_skip ].




(** ** The claims *)

(** C1. For every string X, the empty one included, a POST to the webhook
    verification endpoint whose body is the object with the single property
    challenge = X is answered with status 200 and a body that is exactly
    that object, whatever secret is configured and whatever signature the
    request carries. *)
Theorem C1_challenge_echoed {N : JsNumber}
    (secret signature : option string) (X : string) :
  webhook secret
    {| req_body := Json (VObj [("challenge", VStr X)]);
       req_signature := signature |}
  = {| resp_status := 200;
       resp_body := JsonBody (VObj [("challenge", VStr X)]) |}.
Proof.
  unfold webhook. cbn [req_body].
  assert (H : challenge_of (VObj [("challenge", VStr X)]) = Some X)
    by reflexivity.
  now rewrite H.
Qed.




(** C3. [loadReports] never throws (it returns a builder).  Each of the
    three fields it loads depends on the outcome for its own file only: the
    parsed document when reading and parsing succeed, and otherwise the
    value the field had before, which is [undefined] (absent) in a run.
    Every failure prints the warning of its file, every success the line
    of its file, and nothing else of the builder changes. *)
Theorem C3_loadReports_independent {N : JsNumber} (w : world) (b : builder) :
  health (dashboardData (loadReports w b))
    = loaded (read_json w (health_report_path w)) (health (dashboardData b)) /\
  repositories (dashboardData (loadReports w b))
    = loaded (read_json w (repo_analysis_path w)) (repositories (dashboardData b)) /\
  performance (dashboardData (loadReports w b))
    = loaded (read_json w (performance_analysis_path w))
             (performance (dashboardData b)) /\
  health (dashboardData (loadReports w (new_DashboardBuilder w)))
    = loaded (read_json w (health_report_path w)) VUndef /\
  repositories (dashboardData (loadReports w (new_DashboardBuilder w)))
    = loaded (read_json w (repo_analysis_path w)) VUndef /\
  performance (dashboardData (loadReports w (new_DashboardBuilder w)))
    = loaded (read_json w (performance_analysis_path w)) VUndef /\
  console (loadReports w b) =
    (console b ++
     [ "📊 Loading analysis reports...";
       load_line (read_json w (health_report_path w))
         "✓ Health report loaded" "⚠️  Health report not found";
       load_line (read_json w (repo_analysis_path w))
         "✓ Repository analysis loaded" "⚠️  Repository analysis not found";
       load_line (read_json w (performance_analysis_path w))
         "✓ Performance analysis loaded" "⚠️  Performance analysis not found" ])%list /\
  written (loadReports w b) = written b /\
  sections (dashboardData (loadReports w b)) = sections (dashboardData b) /\
  alerts (dashboardData (loadReports w b)) = alerts (dashboardData b) /\
  title (dashboardData (loadReports w b)) = title (dashboardData b).
Proof.
  rewrite !loadReports_data, loadReports_console, loadReports_written.
  cbn [health repositories performance sections alerts title dashboardData
       new_DashboardBuilder].
  repeat split; reflexivity.
Qed.




(** C5. When reading or parsing fails for all three report files, no step
    throws: the alerts stay empty and the page is rendered with the badge
    class "unknown", the badge text "Unknown", the placeholder of every
    card and the "no active alerts" line; when the page can be written the
    run writes exactly that page and exits with code 0.  The text of that
    page holds, in this order, the title, and under the heading of each
    card its badge or placeholder, then the time of the run. *)
Theorem C5_all_reports_absent {N : JsNumber} (w : world) :
  failed (read_json w (health_report_path w)) = true ->
  failed (read_json w (repo_analysis_path w)) = true ->
  failed (read_json w (performance_analysis_path w)) = true ->
  let page :=
    html_page "Lab Automation Dashboard" "unknown" "Unknown"
      "<p>No health data available</p>"
      "<p>No performance data available</p>"
      "<p>No repository data available</p>"
      no_active_alerts
      "<p>No lab data available</p>"
      "<p>No workflow data available</p>"
      (locale_time w) in
  (exists b, buildSections w (loadReports w (new_DashboardBuilder w)) = Ok b /\
             alerts (dashboardData b) = [] /\
             render (locale_time w) (dashboardData b) = Ok page) /\
  (writable w (dashboard_path w) = true -> main w = page_written w page) /\
  in_order
    [ "<title>"; "Lab Automation Dashboard"; "</title>";
      "<h1>"; "Lab Automation Dashboard"; "</h1>";
      "<h2>System Health</h2>"; "status-badge status-unknown"; "Unknown";
      "<p>No health data available</p>";
      "<h2>Performance Score</h2>"; "<p>No performance data available</p>";
      "<h2>Repository Status</h2>"; "<p>No repository data available</p>";
      "<h2>Active Alerts</h2>"; "✓ No active alerts</p>";
      "<h2>Lab Operations</h2>"; "<p>No lab data available</p>";
      "<h2>Workflow Status</h2>"; "<p>No workflow data available</p>";
      "Last Updated:"; locale_time w; "</html>" ]
    page.
Proof.
  intros Hh Hr Hp page.
  assert (Hd : derive_alerts (loaded_data w) = Ok (loaded_data w)).
  { apply derive_alerts_missing. unfold loaded_data. cbn [performance].
    destruct (read_json w (performance_analysis_path w)); [reflexivity.. | discriminate]. }
  assert (Hrender : render (locale_time w) (loaded_data w) = Ok page).
  { unfold loaded_data.
    destruct (read_json w (health_report_path w)); try discriminate;
      destruct (read_json w (repo_analysis_path w)); try discriminate;
      destruct (read_json w (performance_analysis_path w)); try discriminate;
      reflexivity. }
  split; [|split].
  - pose proof (buildSections_view w (loadReports w (new_DashboardBuilder w))) as Hv.
    assert (Hl : dashboardData (loadReports w (new_DashboardBuilder w)) = loaded_data w)
      by (rewrite loadReports_data; reflexivity).
    rewrite Hl, Hd in Hv.
    destruct (buildSections w (loadReports w (new_DashboardBuilder w))) as [b|e];
      [|contradiction].
    destruct Hv as [Hv _]. exists b. split; [reflexivity|]. split.
    + destruct Hv as (_ & _ & _ & _ & Ha). rewrite Ha. reflexivity.
    + now rewrite (render_same_view _ _ _ Hv).
  - intros Hw. rewrite main_run_on_loaded. unfold run_on_loaded.
    now rewrite Hd, Hrender, Hw.
  - unfold page, html_page. find_in_order.
Qed.

(** C5 at a world where the three loads fail and the page is writable. *)
Lemma C5_all_reports_absent_witness :
  failed (read_json absent_world (health_report_path absent_world)) = true /\
  failed (read_json absent_world (repo_analysis_path absent_world)) = true /\
  failed (read_json absent_world (performance_analysis_path absent_world)) = true /\
  writable absent_world (dashboard_path absent_world) = true /\
  exit_code (main absent_world) = 0%Z /\
  exists page, files (main absent_world) = [("/app/dashboard.html", page)].
Proof.
  do 4 (split; [reflexivity|]).
  destruct (C5_all_reports_absent absent_world eq_refl eq_refl eq_refl) as (_ & H & _).
  rewrite (H eq_refl). split; [reflexivity|].
  eexists. reflexivity.
Defined.

(** C6 (amended). When the performance report has a bottlenecks array that
    is not empty, in which no entry is [null] and every entry has an area,
    a current value and a target value that convert to text,
    [buildSections] succeeds and the alerts are, entry by entry and in
    order, the records with severity b.severity, area b.area, impact
    b.impact and the message
    "<area>: <current_value> (target: <target_value>)".  The condition on
    the entries is the exact one: on any other array that is not empty the
    callback throws and no alerts are derived. *)
Theorem C6_alerts_from_bottlenecks {N : JsNumber}
    (w : world) (b : builder) (bs : list value) :
  opt_member (performance (dashboardData b)) "bottlenecks" = VArr bs ->
  bs <> [] ->
  (forallb convertible_entry bs = true ->
   exists b', buildSections w b = Ok b' /\
              Forall2 alert_for bs (alerts (dashboardData b'))) /\
  (forallb convertible_entry bs = false ->
   buildSections w b = Throw TypeError).
Proof.
  intros Hb Hne.
  rewrite buildSections_unfold, derive_alerts_derived.
  rewrite (derived_alerts_array _ bs Hb Hne). split.
  - intros Hentries.
    destruct (mapM_alerts_convertible bs Hentries) as [al [Hal HF]].
    rewrite Hal. cbn [bind]. eexists. split; [reflexivity|]. exact HF.
  - intros Hentries. now rewrite (mapM_alerts_throw bs Hentries).
Qed.

(** C6 (amended) at a report with two bottlenecks. *)
Lemma C6_alerts_from_bottlenecks_witness :
  opt_member (performance (dashboardData two_bottlenecks_builder)) "bottlenecks"
    = VArr two_bottlenecks /\
  two_bottlenecks <> [] /\
  forallb convertible_entry two_bottlenecks = true /\
  exists b', buildSections absent_world two_bottlenecks_builder = Ok b' /\
             Forall2 alert_for two_bottlenecks (alerts (dashboardData b')).
Proof.
  split; [reflexivity|]. split; [discriminate|]. split; [reflexivity|].
  apply (C6_alerts_from_bottlenecks absent_world two_bottlenecks_builder
           two_bottlenecks); [reflexivity | discriminate | reflexivity].
Defined.

(** C6, as stated, fails.  The list [[null]] is a bottlenecks list that is
    not empty, and on it [b.severity] throws: no alerts are derived.  The
    same happens when the area of the only entry does not convert to
    text. *)
Lemma C6_counterexample :
  opt_member (performance (dashboardData null_bottleneck_builder)) "bottlenecks"
    = VArr [VNull] /\
  buildSections absent_world null_bottleneck_builder = Throw TypeError /\
  opt_member (performance (dashboardData unconvertible_area_builder)) "bottlenecks"
    = VArr [unconvertible_area] /\
  nullish unconvertible_area = false /\
  buildSections absent_world unconvertible_area_builder = Throw TypeError.
Proof. repeat split. Qed.




(** C8. Two runs that find the same working directory, the same outcome
    for every report file and the same writable paths either both end with
    an uncaught exception, or both write the page to the same path, and the
    two pages are the same text before and after the time printed under
    "Last Updated": they differ in that time only. *)
Theorem C8_identical_up_to_timestamp {N : JsNumber} (w1 w2 : world) :
  cwd w1 = cwd w2 ->
  (forall p, read_json w1 p = read_json w2 p) ->
  (forall p, writable w1 p = writable w2 p) ->
  (main w1 = crashed /\ main w2 = crashed) \/
  (exists A B,
      main w1 = page_written w1 (A ++ locale_time w1 ++ B) /\
      main w2 = page_written w2 (A ++ locale_time w2 ++ B) /\
      dashboard_path w1 = dashboard_path w2).
Proof.
  intros Hcwd Hread Hwrite.
  assert (Hpath : dashboard_path w1 = dashboard_path w2)
    by (unfold dashboard_path; now rewrite Hcwd).
  assert (Hview : same_view (loaded_data w1) (loaded_data w2)).
  { unfold same_view, loaded_data, health_report_path, repo_analysis_path,
      performance_analysis_path, reportsDir.
    cbn [title health repositories performance alerts].
    rewrite Hcwd, !Hread. repeat split. }
  rewrite !main_run_on_loaded. unfold run_on_loaded.
  pose proof (derive_alerts_same_view _ _ Hview) as Hd.
  destruct (derive_alerts (loaded_data w1)) as [d1|e1];
    destruct (derive_alerts (loaded_data w2)) as [d2|e2]; try contradiction;
    [|left; split; reflexivity].
  rewrite <- (render_same_view (locale_time w2) d1 d2 Hd).
  rewrite <- Hpath, <- Hwrite.
  destruct (render_split d1) as [[e He] | (A & B & HAB)].
  - rewrite !He. left. split; reflexivity.
  - rewrite !HAB.
    destruct (writable w1 (dashboard_path w1)).
    + right. exists A, B. unfold page_written. rewrite Hpath. repeat split.
    + left. split; reflexivity.
Qed.

(** C8 at two runs over the same reports, a morning and an evening one. *)
Lemma C8_identical_up_to_timestamp_witness :
  cwd morning_world = cwd evening_world /\
  (forall p, read_json morning_world p = read_json evening_world p) /\
  (forall p, writable morning_world p = writable evening_world p) /\
  exists A B,
    files (main morning_world)
      = [("/app/dashboard.html", A ++ "1/1/2024, 10:00:00 AM" ++ B)] /\
    files (main evening_world)
      = [("/app/dashboard.html", A ++ "1/1/2024, 10:00:00 PM" ++ B)].
Proof.
  split; [reflexivity|]. split; [reflexivity|]. split; [reflexivity|].
  destruct (C8_identical_up_to_timestamp morning_world evening_world eq_refl
              (fun _ => eq_refl) (fun _ => eq_refl))
    as [[H1 _] | (A & B & H1 & H2 & _)].
  - apply (f_equal exit_code) in H1. vm_compute in H1. discriminate.
  - exists A, B. rewrite H1, H2. split; reflexivity.
Defined.

(** C9. The alerts card depends on the first three alerts only, and when it
    lists alerts it is the concatenation of at most three rows, the
    renderings of the first three alerts in their order; the health card
    likewise depends on the first three entries of the metrics only and is
    the concatenation of at most three rows, their renderings in order. *)
Theorem C9_at_most_three {N : JsNumber} (d : dashboard_data) :
  generateAlerts d = generateAlerts (set_alerts (firstn 3 (alerts d)) d) /\
  (forall html,
      alerts d <> [] -> generateAlerts d = Ok html ->
      exists rows,
        Forall2 (fun a row => render_alert a = Ok row) (firstn 3 (alerts d)) rows /\
        html = join "" rows /\ List.length rows <= 3) /\
  (forall d',
      truthy (health d) = true -> truthy (health d') = true ->
      firstn 3 (entries (js_or (prop (health d) "metrics") (VObj [])))
      = firstn 3 (entries (js_or (prop (health d') "metrics") (VObj []))) ->
      generateHealthMetrics d = generateHealthMetrics d') /\
  (forall html,
      truthy (health d) = true -> generateHealthMetrics d = Ok html ->
      exists rows,
        Forall2 (fun kv row => render_metric kv = Ok row)
                (firstn 3 (entries (js_or (prop (health d) "metrics") (VObj [])))) rows /\
        html = join "" rows /\ List.length rows <= 3).
Proof.
  split; [|split; [|split]].
  - unfold generateAlerts, slice0. cbn [alerts set_alerts].
    destruct (alerts d) as [|a l]; [reflexivity|].
    rewrite firstn_firstn_same. reflexivity.
  - intros html Hne H. unfold generateAlerts, slice0 in H.
    destruct (alerts d) as [|a l]; [congruence|].
    destruct (mapM render_alert (firstn 3 (a :: l))) as [rows|e] eqn:Hrows;
      cbn [bind] in H; [|discriminate].
    injection H as <-. exists rows. apply mapM_Forall2 in Hrows.
    split; [exact Hrows|]. split; [reflexivity|].
    rewrite <- (Forall2_length Hrows). apply firstn_le_length.
  - intros d' Ht Ht' Heq. unfold generateHealthMetrics, slice0.
    rewrite Ht, Ht'. cbn [negb].
    rewrite !member_truthy by assumption. cbn [bind]. now rewrite Heq.
  - intros html Ht H. unfold generateHealthMetrics, slice0 in H.
    rewrite Ht in H. cbn [negb] in H.
    rewrite member_truthy in H by assumption. cbn [bind] in H.
    destruct (mapM render_metric _) as [rows|e] eqn:Hrows; cbn [bind] in H;
      [|discriminate].
    injection H as <-. exists rows. apply mapM_Forall2 in Hrows.
    split; [exact Hrows|]. split; [reflexivity|].
    rewrite <- (Forall2_length Hrows). apply firstn_le_length.
Qed.

(** C9 at data with four alerts: the card is the three rows of the first
    three. *)
Lemma C9_at_most_three_witness :
  List.length (alerts crowded_data) = 4 /\
  generateAlerts crowded_data
  = generateAlerts (set_alerts (firstn 3 four_alerts) crowded_data) /\
  generateAlerts crowded_data
  = Ok (alert_row "high" "a" "a" ++ alert_row "high" "b" "b" ++ alert_row "high" "c" "c").
Proof.
  split; [reflexivity|].
  split; [exact (proj1 (C9_at_most_three crowded_data))|].
  vm_compute. reflexivity.
Defined.

(** C10. The page is a function of the title, health, repositories,
    performance and alerts of the builder's data: two data that agree on
    these render the same page, whatever their sections; and a run gives
    the same exit code and the same file whether or not the three
    [sections.push] statements of [buildSections] run. *)
Theorem C10_sections_never_read {N : JsNumber} :
  (forall now d1 d2, same_view d1 d2 -> render now d1 = render now d2) /\
  (forall now l d, render now (set_sections l d) = render now d) /\
  (forall w, main w = main_with buildSections_without_push w).
Proof.
  split; [|split].
  - intros now d1 d2. apply render_same_view.
  - intros now l d. apply render_same_view, same_view_set_sections.
  - intros w. rewrite main_run_on_loaded. symmetry.
    apply main_with_view. intros b. apply buildSections_without_push_view.
Qed.

(** ** Further properties of the builder *)

(** X1. A run ends in one of two ways: with code 1 and no file written, or
    with code 0, the output path writable, and exactly one file written,
    at the path of the dashboard. *)
Theorem X1_page_or_nothing {N : JsNumber} (w : world) :
  (exit_code (main w) = 1%Z /\ files (main w) = []) \/
  (exit_code (main w) = 0%Z /\ writable w (dashboard_path w) = true /\
   exists html, files (main w) = [(dashboard_path w, html)]).
Proof.
  rewrite main_run_on_loaded. unfold run_on_loaded.
  destruct (derive_alerts (loaded_data w)) as [d|e]; [|left; split; reflexivity].
  destruct (render (locale_time w) d) as [html|e]; [|left; split; reflexivity].
  destruct (writable w (dashboard_path w)) eqn:Hw; [|left; split; reflexivity].
  right. repeat split. exists html. reflexivity.
Qed.

(** X2. When the output path cannot be written, the run ends with code 1
    and without a file, whatever the reports are. *)
Theorem X2_unwritable_output {N : JsNumber} (w : world) :
  writable w (dashboard_path w) = false -> main w = crashed.
Proof.
  intros Hw. rewrite main_run_on_loaded. unfold run_on_loaded.
  destruct (derive_alerts (loaded_data w)) as [d|e]; [|reflexivity].
  destruct (render (locale_time w) d) as [html|e]; [|reflexivity].
  now rewrite Hw.
Qed.

(** X2 at a world whose reports load and whose output cannot be written. *)
Lemma X2_unwritable_output_witness :
  writable read_only_world (dashboard_path read_only_world) = false /\
  exit_code (main read_only_world) = 1%Z /\
  files (main read_only_world) = [].
Proof.
  split; [reflexivity|].
  rewrite (X2_unwritable_output read_only_world eq_refl).
  split; reflexivity.
Defined.

(** X3. [buildSections] and the rendering of the page can only throw a
    [TypeError].  [generateHTML] and [build] throw a [TypeError] or the
    error of [writeFileSync], and the latter only when the output path is
    not writable and the page has been rendered (for [build]: after
    [buildSections] has returned). *)
Theorem X3_exceptions_of_build {N : JsNumber} (w : world) (b : builder) :
  (forall e, buildSections w b = Throw e -> e = TypeError) /\
  (forall now e, render now (dashboardData b) = Throw e -> e = TypeError) /\
  (forall e,
      generateHTML w b = Throw e ->
      e = TypeError \/
      (e = WriteError /\ writable w (dashboard_path w) = false /\
       exists html, render (locale_time w) (dashboardData b) = Ok html)) /\
  (forall e,
      build w b = Throw e ->
      e = TypeError \/
      (e = WriteError /\ writable w (dashboard_path w) = false /\
       exists b1 html,
         buildSections w (loadReports w (log "
🚀 Building Enhanced Dashboard...
" b)) = Ok b1 /\
         render (locale_time w) (dashboardData b1) = Ok html)).
Proof.
  split; [|split; [|split]].
  - intros e. apply only_type_errors_buildSections.
  - intros now e. apply only_type_errors_render.
  - intros e. rewrite generateHTML_unfold.
    destruct (render (locale_time w) (dashboardData b)) as [html|e'] eqn:H.
    + destruct (writable w (dashboard_path w)); [discriminate|].
      intros He. injection He as <-. right.
      split; [reflexivity|]. split; [reflexivity|]. now exists html.
    + intros He. injection He as <-. left.
      exact (only_type_errors_render _ _ _ H).
  - intros e. apply build_throws.
Qed.

(** X3 at a world whose output cannot be written. *)
Lemma X3_exceptions_of_build_witness :
  build read_only_world (new_DashboardBuilder read_only_world) = Throw WriteError /\
  writable read_only_world (dashboard_path read_only_world) = false.
Proof.
  assert (H : build read_only_world (new_DashboardBuilder read_only_world)
              = Throw WriteError) by (vm_compute; reflexivity).
  split; [exact H|].
  destruct (X3_exceptions_of_build read_only_world
              (new_DashboardBuilder read_only_world)) as (_ & _ & _ & Hbuild).
  destruct (Hbuild _ H) as [Ht | (_ & Hw & _)].
  - discriminate.
  - exact Hw.
Defined.

(** X4. A build of a fresh builder that returns has returned 0, has printed
    exactly eleven lines in a fixed order, among them the line of each
    report (loaded, or its warning) and "Built 3 sections", has three
    sections, and has written exactly the rendering of its data to the
    dashboard path. *)
Theorem X4_log_of_a_successful_build {N : JsNumber}
    (w : world) (code : Z) (b : builder) :
  build w (new_DashboardBuilder w) = Ok (code, b) ->
  code = 0%Z /\
  console b =
    [ "
🚀 Building Enhanced Dashboard...
";
      "📊 Loading analysis reports...";
      load_line (read_json w (health_report_path w))
        "✓ Health report loaded" "⚠️  Health report not found";
      load_line (read_json w (repo_analysis_path w))
        "✓ Repository analysis loaded" "⚠️  Repository analysis not found";
      load_line (read_json w (performance_analysis_path w))
        "✓ Performance analysis loaded" "⚠️  Performance analysis not found";
      "🔨 Building dashboard sections...";
      "✓ Built 3 sections";
      "📝 Generating HTML dashboard...";
      "✓ Dashboard saved to " ++ dashboard_path w;
      "
✅ Dashboard built successfully!";
      "📊 Open " ++ dashboard_path w ++ " in your browser to view
" ] /\
  List.length (sections (dashboardData b)) = 3 /\
  exists html, render (locale_time w) (dashboardData b) = Ok html /\
               written b = [(dashboard_path w, html)].
Proof.
  unfold build, build_with.
  rewrite buildSections_unfold.
  rewrite loadReports_data, loadReports_console, loadReports_written.
  cbn [dashboardData log new_DashboardBuilder console written sections
       List.length Nat.add app].
  destruct (derive_alerts _) as [d'|e] eqn:Hd; cbn [bind]; [|discriminate].
  rewrite generateHTML_unfold. cbn [dashboardData console written].
  destruct (render (locale_time w) _) as [html|e] eqn:Hr; [|discriminate].
  destruct (writable w (dashboard_path w)); [|discriminate]. cbn [bind].
  intros H. injection H as <- <-.
  cbn [dashboardData log console written sections set_sections List.length app].
  split; [reflexivity|]. split; [reflexivity|]. split; [reflexivity|].
  exists html. split; [exact Hr | reflexivity].
Qed.

(** X4 at a world where no report loads: the three warnings are printed. *)
Lemma X4_log_of_a_successful_build_witness :
  exists b,
    build absent_world (new_DashboardBuilder absent_world) = Ok (0%Z, b) /\
    List.length (console b) = 11 /\
    firstn 3 (skipn 2 (console b))
    = [ "⚠️  Health report not found";
        "⚠️  Repository analysis not found";
        "⚠️  Performance analysis not found" ].
Proof.
  destruct (build absent_world (new_DashboardBuilder absent_world))
    as [[code b]|e] eqn:H.
  - destruct (X4_log_of_a_successful_build _ _ _ H) as (-> & Hc & _).
    exists b. split; [reflexivity|]. rewrite Hc. split; reflexivity.
  - exfalso.
    assert (Hm : exit_code (main absent_world) = 0%Z) by (vm_compute; reflexivity).
    unfold main, main_with in Hm.
    change (build_with buildSections) with build in Hm.
    rewrite H in Hm. discriminate.
Defined.

(** X5. When [buildSections] returns, the sections are the ones there
    were before followed by three new ones, with the identifiers
    system-health, performance-metrics and repository-status in this
    order; the title and the three reports are untouched and nothing is
    written. *)
Theorem X5_three_sections_appended {N : JsNumber}
    (w : world) (b b' : builder) :
  buildSections w b = Ok b' ->
  sections (dashboardData b')
  = (sections (dashboardData b)
     ++ [health_section w (dashboardData b);
         performance_section (dashboardData b);
         repository_section (dashboardData b)])%list /\
  map sec_id (sections (dashboardData b'))
  = (map sec_id (sections (dashboardData b))
     ++ ["system-health"; "performance-metrics"; "repository-status"])%list /\
  title (dashboardData b') = title (dashboardData b) /\
  health (dashboardData b') = health (dashboardData b) /\
  repositories (dashboardData b') = repositories (dashboardData b) /\
  performance (dashboardData b') = performance (dashboardData b) /\
  written b' = written b.
Proof.
  rewrite buildSections_unfold.
  destruct (derive_alerts (dashboardData b)) as [d'|e] eqn:Hd; [|discriminate].
  intros H. injection H as <-.
  destruct (derive_alerts_keeps _ _ Hd) as (_ & Ht & Hh & Hr & Hp & _).
  cbn [dashboardData written sections title health repositories performance
       set_sections].
  split; [reflexivity|]. split; [now rewrite map_app|].
  repeat split; assumption.
Qed.

(** X5 at a builder that has loaded two bottlenecks. *)
Lemma X5_three_sections_appended_witness :
  exists b',
    buildSections absent_world two_bottlenecks_builder = Ok b' /\
    map sec_id (sections (dashboardData b'))
    = ["system-health"; "performance-metrics"; "repository-status"].
Proof.
  destruct two_bottlenecks_built as (b' & H & _).
  exists b'. split; [exact H|].
  destruct (X5_three_sections_appended _ _ _ H) as (_ & Hids & _).
  rewrite Hids. reflexivity.
Defined.

(** X6. Running [buildSections] again on its own result succeeds, leaves
    the alerts as they are and appends three more sections: the alerts are
    replaced by each call, the sections accumulate. *)
Theorem X6_buildSections_again {N : JsNumber} (w : world) (b b1 : builder) :
  buildSections w b = Ok b1 ->
  exists b2,
    buildSections w b1 = Ok b2 /\
    alerts (dashboardData b2) = alerts (dashboardData b1) /\
    List.length (sections (dashboardData b2))
    = List.length (sections (dashboardData b)) + 6.
Proof.
  rewrite buildSections_unfold.
  destruct (derive_alerts (dashboardData b)) as [d'|e] eqn:Hd; [|discriminate].
  intros H. injection H as <-.
  rewrite buildSections_unfold. cbn [dashboardData].
  rewrite derive_alerts_set_sections, (derive_alerts_idempotent _ _ Hd).
  eexists. split; [reflexivity|].
  cbn [dashboardData alerts sections set_sections].
  split; [reflexivity|]. rewrite !length_app. cbn [List.length]. lia.
Qed.

(** X6 at a builder that has loaded two bottlenecks: six sections and the
    same two alerts after the second call. *)
Lemma X6_buildSections_again_witness :
  exists b1 b2,
    buildSections absent_world two_bottlenecks_builder = Ok b1 /\
    buildSections absent_world b1 = Ok b2 /\
    List.length (alerts (dashboardData b2)) = 2 /\
    List.length (sections (dashboardData b2)) = 6.
Proof.
  destruct two_bottlenecks_built as (b1 & H & Hlen).
  destruct (X6_buildSections_again _ _ _ H) as (b2 & H2 & Ha & Hs).
  exists b1, b2. split; [exact H|]. split; [exact H2|].
  rewrite Ha, Hs. split; [exact Hlen | reflexivity].
Defined.

(** X7. When the bottlenecks of the performance report are missing, [null],
    a boolean, a number, the empty string, the empty array or an object
    without a length, [buildSections] succeeds and keeps the alerts the
    builder already has: they are not cleared. *)
Theorem X7_no_bottlenecks_keeps_alerts {N : JsNumber} (w : world) (b : builder) :
  no_bottlenecks (performance (dashboardData b)) = true ->
  exists b', buildSections w b = Ok b' /\
             alerts (dashboardData b') = alerts (dashboardData b).
Proof.
  intros H. rewrite buildSections_unfold, derive_alerts_derived.
  rewrite (derived_alerts_none _ H).
  eexists. split; reflexivity.
Qed.

(** X7 at a builder with four alerts whose report has an empty list of
    bottlenecks. *)
Lemma X7_no_bottlenecks_keeps_alerts_witness :
  no_bottlenecks (performance (dashboardData stale_alerts_builder)) = true /\
  exists b', buildSections absent_world stale_alerts_builder = Ok b' /\
             alerts (dashboardData b') = four_alerts.
Proof.
  split; [reflexivity|].
  destruct (X7_no_bottlenecks_keeps_alerts absent_world stale_alerts_builder eq_refl)
    as (b' & Hb & Ha).
  exists b'. split; [exact Hb|]. rewrite Ha. reflexivity.
Defined.

(** X8. When the performance report loads and its bottlenecks are a string
    that is not empty, the test [length > 0] holds, the string has no
    [map], and the run ends with a [TypeError]: [buildSections] throws and
    the process exits with code 1 without writing the page. *)
Theorem X8_string_bottlenecks {N : JsNumber} (w : world) (p : value) (s : string) :
  read_json w (performance_analysis_path w) = Parsed p ->
  opt_member p "bottlenecks" = VStr s ->
  s <> "" ->
  buildSections w (loadReports w (new_DashboardBuilder w)) = Throw TypeError /\
  main w = crashed.
Proof.
  intros Hp Hb Hs.
  assert (Hd : derived_alerts (performance (loaded_data w)) = Throw TypeError).
  { unfold loaded_data. cbn [performance]. rewrite Hp. cbn [loaded].
    exact (derived_alerts_string p s Hb Hs). }
  split.
  - rewrite buildSections_unfold, derive_alerts_derived, loadReports_data.
    cbn [performance dashboardData new_DashboardBuilder].
    unfold loaded_data in Hd. cbn [performance] in Hd. now rewrite Hd.
  - rewrite main_run_on_loaded. unfold run_on_loaded.
    now rewrite derive_alerts_derived, Hd.
Qed.

(** X8 at a report whose bottlenecks are a sentence. *)
Lemma X8_string_bottlenecks_witness :
  read_json string_bottlenecks_world (performance_analysis_path string_bottlenecks_world)
  = Parsed (VObj [("bottlenecks", VStr "TAT is late")]) /\
  exit_code (main string_bottlenecks_world) = 1%Z /\
  files (main string_bottlenecks_world) = [].
Proof.
  split; [reflexivity|].
  destruct (X8_string_bottlenecks string_bottlenecks_world
              (VObj [("bottlenecks", VStr "TAT is late")]) "TAT is late"
              eq_refl eq_refl ltac:(discriminate)) as [_ H].
  rewrite H. split; reflexivity.
Defined.

(** X9. When the performance report loads and its bottlenecks are an array
    with a [null] entry, wherever the entry stands and whatever the other
    entries are, [buildSections] throws a [TypeError] and the process exits
    with code 1 without writing the page. *)
Theorem X9_null_bottleneck_entry {N : JsNumber}
    (w : world) (p : value) (bs : list value) :
  read_json w (performance_analysis_path w) = Parsed p ->
  opt_member p "bottlenecks" = VArr bs ->
  In VNull bs ->
  buildSections w (loadReports w (new_DashboardBuilder w)) = Throw TypeError /\
  main w = crashed.
Proof.
  intros Hp Hb Hin.
  assert (Hd : derived_alerts (performance (loaded_data w)) = Throw TypeError).
  { unfold loaded_data. cbn [performance]. rewrite Hp. cbn [loaded].
    rewrite (derived_alerts_array p bs Hb) by (intros ->; contradiction).
    destruct (mapM_throws alert_of_bottleneck bs VNull TypeError Hin eq_refl)
      as [e He].
    rewrite He. cbn [bind]. f_equal.
    apply (only_type_errors_mapM alert_of_bottleneck bs); [|exact He].
    intros x _. apply only_type_errors_alert_of_bottleneck. }
  split.
  - rewrite buildSections_unfold, derive_alerts_derived, loadReports_data.
    cbn [performance dashboardData new_DashboardBuilder].
    unfold loaded_data in Hd. cbn [performance] in Hd. now rewrite Hd.
  - rewrite main_run_on_loaded. unfold run_on_loaded.
    now rewrite derive_alerts_derived, Hd.
Qed.

(** X9 at a report whose only bottleneck is [null]. *)
Lemma X9_null_bottleneck_entry_witness :
  read_json null_bottleneck_world (performance_analysis_path null_bottleneck_world)
  = Parsed null_bottleneck_report /\
  In VNull [VNull] /\
  main null_bottleneck_world = crashed.
Proof.
  split; [reflexivity|]. split; [now left|].
  exact (proj2 (X9_null_bottleneck_entry null_bottleneck_world
                  null_bottleneck_report [VNull] eq_refl eq_refl
                  (or_introl eq_refl))).
Defined.

(** X10. The alerts card is the line "No active alerts" exactly when the
    builder has no alerts: with at least one alert the card, when it
    renders, is never that line. *)
Theorem X10_no_active_alerts_iff {N : JsNumber} (d : dashboard_data) :
  generateAlerts d = Ok no_active_alerts <-> alerts d = [].
Proof.
  unfold generateAlerts. split.
  - destruct (alerts d) as [|a l] eqn:Ha; [reflexivity|].
    destruct (mapM render_alert (slice0 3 (a :: l))) as [rows|e] eqn:Hrows;
      cbn [bind]; [|discriminate].
    intros H. injection H as H. exfalso.
    pose proof (mapM_rows_start _ _ _ render_alert_starts Hrows) as Hstart.
    assert (Hne : rows <> []).
    { apply mapM_length in Hrows. destruct rows; [discriminate | discriminate]. }
    destruct rows as [|x r]; [congruence|].
    revert H. apply (rows_not_text (x :: r) "<"%char); [discriminate | exact Hstart].
  - intros ->. reflexivity.
Qed.

(** X11. The health card is the placeholder "No health data available"
    exactly when the health report is absent or falsy: a report that is
    present never renders it, whatever its metrics are. *)
Theorem X11_no_health_data_iff {N : JsNumber} (d : dashboard_data) :
  generateHealthMetrics d = Ok "<p>No health data available</p>"
  <-> truthy (health d) = false.
Proof.
  unfold generateHealthMetrics. split.
  - destruct (truthy (health d)) eqn:Ht; [|reflexivity]. cbn [negb].
    rewrite (member_truthy _ _ Ht). cbn [bind].
    destruct (mapM render_metric _) as [rows|e] eqn:Hrows; cbn [bind];
      [|discriminate].
    intros H. injection H as H. exfalso.
    pose proof (mapM_rows_start _ _ _ render_metric_starts Hrows) as Hstart.
    destruct rows as [|x r]; [discriminate|].
    revert H. apply (rows_not_text (x :: r) "<"%char); [discriminate | exact Hstart].
  - intros ->. reflexivity.
Qed.

(** X12. The label of a health metric has no underscore left, is as long as
    the key, and is the key itself when the key has no underscore. *)
Theorem X12_metric_label (key : string) :
  ~ In underscore (chars (underscores_to_spaces key)) /\
  String.length (underscores_to_spaces key) = String.length key /\
  (~ In underscore (chars key) -> underscores_to_spaces key = key).
Proof.
  unfold underscore. split; [|split].
  - induction key as [|c key IH]; cbn [underscores_to_spaces chars In].
    + tauto.
    + intros [H|H]; [|tauto].
      destruct (Ascii.eqb c "_") eqn:E.
      * discriminate.
      * apply Ascii.eqb_neq in E. congruence.
  - induction key as [|c key IH]; cbn [underscores_to_spaces String.length].
    + reflexivity.
    + now rewrite IH.
  - induction key as [|c key IH]; cbn [underscores_to_spaces chars In].
    + reflexivity.
    + intros H. rewrite IH by tauto.
      destruct (Ascii.eqb c "_") eqn:E; [|reflexivity].
      apply Ascii.eqb_eq in E. subst c. tauto.
Qed.

(** X13. Loading the reports a second time leaves the data as the first
    load made it, and each load prints four lines. *)
Theorem X13_loadReports_again {N : JsNumber} (w : world) (b : builder) :
  dashboardData (loadReports w (loadReports w b)) = dashboardData (loadReports w b) /\
  List.length (console (loadReports w b)) = List.length (console b) + 4.
Proof.
  split.
  - rewrite !loadReports_data.
    cbn [timestamp title version sections metrics alerts health repositories
         performance].
    destruct (read_json w (health_report_path w));
      destruct (read_json w (repo_analysis_path w));
      destruct (read_json w (performance_analysis_path w)); reflexivity.
  - rewrite loadReports_console, length_app. reflexivity.
Qed.

(** X14. Every page a run writes starts with the document type, and ends
    with the time of the run followed by the fixed closing text, which
    holds the script that reloads the page after 60 seconds: no report can
    change how the page begins or ends. *)
Theorem X14_page_envelope {N : JsNumber} (w : world) (path html : string) :
  files (main w) = [(path, html)] ->
  path = dashboard_path w /\
  exists A, html = "<!DOCTYPE html>" ++ A ++ locale_time w ++ page_tail.
Proof.
  rewrite main_run_on_loaded. unfold run_on_loaded.
  destruct (derive_alerts (loaded_data w)) as [d|e]; [|discriminate].
  destruct (render (locale_time w) d) as [html'|e] eqn:Hr; [|discriminate].
  destruct (writable w (dashboard_path w)); [|discriminate].
  cbn [files page_written]. intros H. injection H as <- <-.
  split; [reflexivity|]. exact (render_envelope _ _ _ Hr).
Qed.

(** X14 at a world where no report loads. *)
Lemma X14_page_envelope_witness :
  exists html A,
    files (main absent_world) = [("/app/dashboard.html", html)] /\
    html = "<!DOCTYPE html>" ++ A ++ "1/1/2024, 10:00:00 AM" ++ page_tail.
Proof.
  destruct (files (main absent_world)) as [|[path html] [|x r]] eqn:H;
    try (exfalso; apply (f_equal (@List.length _)) in H; vm_compute in H;
         discriminate).
  destruct (X14_page_envelope absent_world path html H) as [-> [A HA]].
  exists html, A. split; [reflexivity | exact HA].
Defined.

(** X15. When the bottlenecks are an array that is not empty and
    [buildSections] returns, the builder holds one alert for each
    bottleneck, made from it by the callback, however many there are; and
    the alerts card, when it renders, is the rows of the first three of
    these alerts, in order: as many rows as the smaller of 3 and the
    number of bottlenecks. *)
Theorem X15_alerts_stored_and_shown {N : JsNumber}
    (w : world) (b b' : builder) (bs : list value) :
  opt_member (performance (dashboardData b)) "bottlenecks" = VArr bs ->
  bs <> [] ->
  buildSections w b = Ok b' ->
  List.length (alerts (dashboardData b')) = List.length bs /\
  Forall2 (fun bn a => alert_of_bottleneck bn = Ok a) bs (alerts (dashboardData b')) /\
  forall html,
    generateAlerts (dashboardData b') = Ok html ->
    exists rows,
      Forall2 (fun a row => render_alert a = Ok row)
              (firstn 3 (alerts (dashboardData b'))) rows /\
      html = join "" rows /\
      List.length rows = Nat.min 3 (List.length bs).
Proof.
  intros Hb Hne. rewrite buildSections_unfold, derive_alerts_derived.
  rewrite (derived_alerts_array _ bs Hb Hne).
  destruct (mapM alert_of_bottleneck bs) as [al|e] eqn:Hal; cbn [bind];
    [|discriminate].
  intros H. injection H as <-.
  cbn [dashboardData alerts set_sections set_alerts].
  pose proof (mapM_length _ _ _ Hal) as Hlen.
  split; [exact Hlen|]. split; [exact (mapM_Forall2 _ _ _ Hal)|].
  intros html. unfold generateAlerts, slice0. cbn [alerts set_sections set_alerts].
  destruct al as [|a al]; [destruct bs; [congruence | discriminate]|].
  destruct (mapM render_alert (firstn 3 (a :: al))) as [rows|e'] eqn:Hrows;
    cbn [bind]; [|discriminate].
  intros H. injection H as <-. exists rows.
  split; [exact (mapM_Forall2 _ _ _ Hrows)|]. split; [reflexivity|].
  rewrite (mapM_length _ _ _ Hrows), length_firstn, Hlen. reflexivity.
Qed.

(** X15 at a report with five bottlenecks. *)
Lemma X15_alerts_stored_and_shown_witness :
  opt_member (performance (dashboardData five_bottlenecks_builder)) "bottlenecks"
  = VArr five_bottlenecks /\
  exists b',
    buildSections absent_world five_bottlenecks_builder = Ok b' /\
    List.length (alerts (dashboardData b')) = 5.
Proof.
  split; [reflexivity|].
  destruct five_bottlenecks_built as [b' H].
  exists b'. split; [exact H|].
  exact (proj1 (X15_alerts_stored_and_shown absent_world five_bottlenecks_builder
                  b' five_bottlenecks eq_refl ltac:(discriminate) H)).
Defined.
